(** * Supabase MCP server: configuration resolution ([supabase_mcp/settings.py])

    A shallow embedding of [find_config_file] and of [Settings] with its
    validators and [Settings.with_config], followed by the properties of
    the configuration layer.

    What is outside [settings.py] enters as follows.
    - [pathlib]: an interface [PathOps] (join, [str], absoluteness) with a
      POSIX-flavoured instance used for the concrete runs.
    - The file system: a finite map from path strings to entries
      (regular file with its dotenv bindings, or directory).
    - [os.environ]: the list of its items, in iteration order.
    - The logger: every call is recorded in a trace, together with every
      existence probe of the file system.
    - [pydantic_settings.BaseSettings]: the defaults of its configuration
      that the class relies on ([case_sensitive=False], [env_prefix=''],
      [validate_default=True], [extra='forbid'], environment before dotenv
      file before field default). *)

From Stdlib Require Import String Ascii.
From stdpp Require Import base option list gmap strings.

Local Open Scope string_scope.

(** ** Python primitives *)

Module Py.

  (** [bool(s)] for a [str]: the empty string is falsy. *)
Definition truthy (s : string) : bool :=
    match s with EmptyString => false | String _ _ => true end.

  (** [bool(v)] for a [str | None]. *)
Definition truthy_opt (v : option string) : bool :=
    match v with None => false | Some s => truthy s end.

  (** [v or d] for [v : str | None] and [d : str]. *)
Definition or_else (v : option string) (d : string) : string :=
    match v with
    | Some s => if truthy s then s else d
    | None => d
    end.

  (** [s.startswith(p)] *)
Fixpoint startswith (s p : string) : bool :=
    match p, s with
    | EmptyString, _ => true
    | String _ _, EmptyString => false
    | String c p', String d s' => Ascii.eqb d c && startswith s' p'
    end.

  (** [c.lower()] on one ASCII character; bytes outside [A-Z] are kept. *)
Definition lower_ascii (c : ascii) : ascii :=
    let n := nat_of_ascii c in
    if (65 <=? n)%nat && (n <=? 90)%nat then ascii_of_nat (n + 32) else c.

  (** [s.lower()] *)
Fixpoint lower (s : string) : string :=
    match s with
    | EmptyString => EmptyString
    | String c s' => String (lower_ascii c) (lower s')
    end.

  (** [d.get(k)] and [k in d] for a dict given by its items. *)
Definition dict_get (d : list (string * string)) (k : string) : option string :=
    snd <$> List.find (fun kv => String.eqb (fst kv) k) d.

Definition dict_contains (d : list (string * string)) (k : string) : bool :=
    bool_decide (is_Some (dict_get d k)).

  (** [any(f(x) for x in xs)] *)
Definition any {A} (f : A -> bool) (xs : list A) : bool := existsb f xs.

End Py.

Example lower_alias : Py.lower "SUPABASE_PROJECT_REF" = "supabase_project_ref".
Proof. reflexivity. Qed.

Example startswith_loopback : Py.startswith "127.0.0.1:54322" "127.0.0.1" = true.
Proof. reflexivity. Qed.

(** ** Effects: the logger, file-system probes and exceptions *)

Inductive Level := INFO | ERROR.

(** What the code does to the outside, in program order: a call of
    [logger.info] / [logger.error], or an existence test of a path. *)
Inductive Event :=
| Logged (lvl : Level) (msg : string)
| Probed (path : string).

Definition Trace := list Event.

(** One entry of a pydantic [ValidationError]: the input key and the
    message of the [ValueError] a validator raised, or an input key that
    no field accepts (the class forbids extra inputs). *)
Inductive ErrorDetail :=
| value_error (loc msg : string)
| extra_forbidden (loc : string).

Inductive Exn :=
| ValueError (msg : string)
| ValidationError (errors : list ErrorDetail).

Inductive Outcome (A : Type) :=
| Returned (a : A)
| Raised (e : Exn).
Arguments Returned {A} a.
Arguments Raised {A} e.

(** A computation appends its events to the trace it is started on and
    either returns or raises. *)
Definition Eff (A : Type) : Type := Trace -> Outcome A * Trace.

Global Instance Eff_ret : MRet Eff := fun A a t => (Returned a, t).

Global Instance Eff_bind : MBind Eff := fun A B k m t =>
  match m t with
  | (Returned a, t') => k a t'
  | (Raised e, t') => (Raised e, t')
  end.

Definition raise {A} (e : Exn) : Eff A := fun t => (Raised e, t).

Definition emit (ev : Event) : Eff unit := fun t => (Returned tt, (t ++ [ev])%list).

(** [try: m except ValueError as e: h(e)]; the outcome is handed on as a
    value, as pydantic does with what a field validator raises. *)
Definition catch_value_error {A} (m : Eff A) : Eff (A + string) := fun t =>
  match m t with
  | (Returned a, t') => (Returned (inl a), t')
  | (Raised (ValueError msg), t') => (Returned (inr msg), t')
  | (Raised e, t') => (Raised e, t')
  end.

Module logger.
Definition info (msg : string) : Eff unit := emit (Logged INFO msg).
Definition error (msg : string) : Eff unit := emit (Logged ERROR msg).
End logger.

(** ** The file system and paths *)

(** A dotenv file is given by the [key=value] bindings it defines, in
    file order (what [dotenv_values] returns for it). *)
Definition Bindings := list (string * string).

Inductive Entry :=
| RegularFile (content : Bindings)
| Directory.

(** The file system, by path string as handed to the operating system. *)
Abbreviation FileSystem := (gmap string Entry).

(** The part of [pathlib.Path] the module uses. *)
Class PathOps (P : Type) := {
  Path : string -> P;
  joinpath : P -> string -> P;
  path_str : P -> string;
  is_absolute : P -> bool;
  joinpath_absolute :
    forall p s, is_absolute p = true -> is_absolute (joinpath p s) = true
}.

Notation "p // s" := (joinpath p s) (at level 40, left associativity).

(** [Path.exists()] is true of any entry; [Path.is_file()] only of a
    regular file. *)
Definition fs_exists (fs : FileSystem) (p : string) : bool :=
  bool_decide (is_Some (fs !! p)).

Definition fs_is_file (fs : FileSystem) (p : string) : bool :=
  match fs !! p with Some (RegularFile _) => true | _ => false end.

(** The existence test answers for every path: a file system that
    refuses access, where the test would raise, is outside this model, as
    is a process whose working or home directory cannot be determined. *)
Definition path_exists `{PathOps P} (fs : FileSystem) (p : P) : Eff bool :=
  _ ← emit (Probed (path_str p)); mret (fs_exists fs (path_str p)).

(** ** Config file locator *)

(** What [find_config_file] reads from the process. *)
Record Process (P : Type) := {
  cwd : P;                       (* Path.cwd() *)
  home : P;                      (* Path.home() *)
  os_name : string;              (* os.name *)
  environ : list (string * string) (* os.environ.items() *)
}.
Arguments cwd {P} _.
Arguments home {P} _.
Arguments os_name {P} _.
Arguments environ {P} _.

Section Locator.
Context `{PathOps P}.
Variable proc : Process P.
Variable fs : FileSystem.

Definition global_config_path : P :=
    if String.eqb (os_name proc) "nt"
    then Path (default "" (Py.dict_get (environ proc) "APPDATA")) // "supabase-mcp" // ".env"
    else home proc // ".config" // "supabase-mcp" // ".env".

Definition deprecation_message (global_config : P) : string :=
    "DEPRECATED: " ++ path_str global_config
      ++ " is deprecated and will be removed in a future release. "
      ++ "Use your IDE's native .json config file to configure access to MCP.".

Definition find_config_file (env_file : string) : Eff (option string) :=
    let cwd_config := cwd proc // env_file in
    found ← path_exists fs cwd_config;
    if (found : bool) then mret (Some (path_str cwd_config))
    else
      let global_config := global_config_path in
      found ← path_exists fs global_config;
      if (found : bool) then
        _ ← logger.error (deprecation_message global_config);
        mret (Some (path_str global_config))
      else mret None.

End Locator.

(** A POSIX-flavoured instance: a path is its string, [Path("")] is the
    current directory, and joining an absolute right-hand side discards
    the left one. *)
Module Posix.

Definition of_string (s : string) : string :=
    if Py.truthy s then s else ".".

Definition join (p s : string) : string :=
    if Py.startswith s "/" then s
    else if String.eqb p "." then of_string s
    else if Py.truthy s then p ++ "/" ++ s
    else p.

Definition absolute (p : string) : bool := Py.startswith p "/".

Lemma join_absolute p s : absolute p = true -> absolute (join p s) = true.
Proof.
    unfold absolute, join. intros Hp.
    destruct (Py.startswith s "/") eqn:Hs; [exact Hs|].
    destruct p as [|c p]; [discriminate|].
    destruct (String.eqb (String c p) ".") eqn:Hdot.
    - apply String.eqb_eq in Hdot. rewrite Hdot in Hp. discriminate.
    - destruct (Py.truthy s); [|exact Hp].
      cbn in Hp |- *. destruct p; exact Hp.
Qed.

Global Instance ops : PathOps string := {|
    Path := of_string;
    joinpath := join;
    path_str := fun p => p;
    is_absolute := absolute;
    joinpath_absolute := join_absolute
  |}.

End Posix.

(** ** Settings: the schema *)

(** A [Field(...)] declaration of the class body. A default of [None] is
    Python's [None]; a field declared without alias has [alias = None]. *)
Record FieldInfo := {
  name : string;
  default_value : option string;
  alias : option string
}.

Definition supabase_project_ref_field : FieldInfo :=
  {| name := "supabase_project_ref";
     default_value := Some "127.0.0.1:54322";
     alias := Some "SUPABASE_PROJECT_REF" |}.

Definition supabase_db_password_field : FieldInfo :=
  {| name := "supabase_db_password";
     default_value := None;
     alias := Some "SUPABASE_DB_PASSWORD" |}.

Definition supabase_region_field : FieldInfo :=
  {| name := "supabase_region";
     default_value := Some "us-east-1";
     alias := Some "SUPABASE_REGION" |}.

Definition supabase_access_token_field : FieldInfo :=
  {| name := "supabase_access_token";
     default_value := None;
     alias := Some "SUPABASE_ACCESS_TOKEN" |}.

Definition supabase_service_role_key_field : FieldInfo :=
  {| name := "supabase_service_role_key";
     default_value := None;
     alias := Some "SUPABASE_SERVICE_ROLE_KEY" |}.

Definition supabase_api_url_field : FieldInfo :=
  {| name := "supabase_api_url";
     default_value := Some "https://api.supabase.com";
     alias := None |}.

Definition query_api_key_field : FieldInfo :=
  {| name := "query_api_key";
     default_value := Some "test-key";
     alias := Some "QUERY_API_KEY" |}.

Definition query_api_url_field : FieldInfo :=
  {| name := "query_api_url";
     default_value := Some "https://api.thequery.dev/v1";
     alias := Some "QUERY_API_URL" |}.

(** [Settings.model_fields], in declaration order. *)
Definition model_fields : list FieldInfo :=
  [ supabase_project_ref_field; supabase_db_password_field;
    supabase_region_field; supabase_access_token_field;
    supabase_service_role_key_field; supabase_api_url_field;
    query_api_key_field; query_api_url_field ].

(** Membership of a declared field in the schema. *)
Ltac in_fields :=
  unfold model_fields;
  repeat first [apply list_elem_of_here | apply list_elem_of_further].

(** An instance of the class. *)
Record Settings := {
  supabase_project_ref : string;
  supabase_db_password : option string;
  supabase_region : string;
  supabase_access_token : option string;
  supabase_service_role_key : option string;
  supabase_api_url : string;
  query_api_key : string;
  query_api_url : string
}.

(** [getattr(instance, field.name)], with [None] for Python's [None]. *)
Definition getattr (s : Settings) (f : string) : option string :=
  if String.eqb f "supabase_project_ref" then Some (supabase_project_ref s)
  else if String.eqb f "supabase_db_password" then supabase_db_password s
  else if String.eqb f "supabase_region" then Some (supabase_region s)
  else if String.eqb f "supabase_access_token" then supabase_access_token s
  else if String.eqb f "supabase_service_role_key" then supabase_service_role_key s
  else if String.eqb f "supabase_api_url" then Some (supabase_api_url s)
  else if String.eqb f "query_api_key" then Some (query_api_key s)
  else if String.eqb f "query_api_url" then Some (query_api_url s)
  else None.

(** ** Settings sources (pydantic-settings) *)

(** The key under which a field takes its input: its alias when it has
    one, its name otherwise. *)
Definition field_key (f : FieldInfo) : string :=
  default (name f) (alias f).

(** The class keeps [env_prefix = ''] and [case_sensitive = False]. *)
Definition env_prefix : string := "".

(** The name under which a source looks a field up: the alias as it is,
    or the prefixed field name; lower-cased, names being matched without
    regard to case. *)
Definition env_name (f : FieldInfo) : string :=
  Py.lower (match alias f with
            | Some a => a
            | None => env_prefix ++ name f
            end).

(** [{k.lower(): v for k, v in items}]: a later item replaces an earlier
    one of the same lower-cased name. *)
Definition parse_env_vars (items : list (string * string)) : gmap string string :=
  foldl (fun m kv => <[Py.lower (fst kv) := snd kv]> m) ∅ items.

(** The variables of the dotenv file: none without [env_file], and none
    when the path is not a regular file. The path is looked up as it is
    given; a path that starts with [~], which the reader first expands to
    a home directory, is outside this model. *)
Definition read_env_file (fs : FileSystem) (env_file : option string)
  : gmap string string :=
  match env_file with
  | None => ∅
  | Some p =>
      match fs !! Posix.of_string p with
      | Some (RegularFile content) => parse_env_vars content
      | _ => ∅
      end
  end.

(** What a source contributes: for each field found under its name, the
    value under the field's key. *)
Definition source_values (vars : gmap string string) : gmap string string :=
  list_to_map
    (omap (fun f => pair (field_key f) <$> vars !! env_name f) model_fields).

(** The dotenv source also hands on every non-empty variable of the file
    that no field reads, under its own name. *)
Definition is_field_name (k : string) : bool :=
  bool_decide (k ∈ env_name <$> model_fields).

Definition dotenv_extra (vars : gmap string string) : gmap string string :=
  filter (fun kv => Py.truthy (snd kv) = true /\ is_field_name (fst kv) = false) vars.

Definition env_settings (environ : list (string * string)) : gmap string string :=
  source_values (parse_env_vars environ).

Definition dotenv_settings (fs : FileSystem) (env_file : option string)
  : gmap string string :=
  let vars := read_env_file fs env_file in
  source_values vars ∪ dotenv_extra vars.

(** The merged input of the model: the environment source overrides the
    dotenv source, key by key. *)
Definition build_values (environ : list (string * string))
    (fs : FileSystem) (env_file : option string) : gmap string string :=
  env_settings environ ∪ dotenv_settings fs env_file.

(** ** Settings: validators and construction *)

(** [info.data]: the fields validated so far, by field name. *)
Abbreviation InfoData := (gmap string string).

Definition validate_region (v : string) (info_data : InfoData) : Eff string :=
  mret v.

Definition validate_project_ref (v : string) : Eff string :=
  if negb (Py.truthy v) then
    raise (ValueError "SUPABASE_PROJECT_REF cannot be empty.")
  else mret v.

Definition validate_db_password (v : option string) (info_data : InfoData)
  : Eff (option string) :=
  let project_ref := default "" (info_data !! "supabase_project_ref") in
  if Py.startswith project_ref "127.0.0.1" then
    mret (Some (Py.or_else v "postgres"))
  else if negb (Py.truthy_opt v) then
    _ ← logger.error
          "SUPABASE_DB_PASSWORD is required when connecting to a remote instance";
    raise (ValueError "Database password is required for remote Supabase projects.")
  else mret v.

(** The input of a field: the value under its key, or its default (the
    class validates defaults like given values). *)
Definition field_input (data : gmap string string) (f : FieldInfo) : option string :=
  match data !! field_key f with
  | Some v => Some v
  | None => default_value f
  end.

(** The input of a field declared [str]; its default is a string. *)
Definition str_input (data : gmap string string) (f : FieldInfo) : string :=
  default "" (field_input data f).

(** Where an error on a field is located: at the key under which the
    input was given, or at the field's name when the input was absent and
    the default was validated. *)
Definition error_loc (data : gmap string string) (f : FieldInfo) : string :=
  match data !! field_key f with
  | Some _ => field_key f
  | None => name f
  end.

Definition error_of {A} (data : gmap string string) (f : FieldInfo)
    (r : A + string) : list ErrorDetail :=
  match r with
  | inl _ => []
  | inr msg => [value_error (error_loc data f) msg]
  end.

(** Inputs under a key of no field are refused, one error per key, after
    the errors of the fields. The order among these errors is that of the
    map here and is not the program's; no statement below depends on it. *)
Definition extra_errors (data : gmap string string) : list ErrorDetail :=
  omap (fun kv =>
          if bool_decide (fst kv ∈ field_key <$> model_fields) then None
          else Some (extra_forbidden (fst kv)))
       (map_to_list data).

(** Validation of the model: the fields in declaration order, each
    validator seeing the fields validated before it; every error is
    collected and raised in one [ValidationError]. *)
Definition model_validate (data : gmap string string) : Eff Settings :=
  r_ref ← catch_value_error
            (validate_project_ref (str_input data supabase_project_ref_field));
  let info_data : InfoData :=
    match r_ref with
    | inl v => {[ "supabase_project_ref" := v ]}
    | inr _ => ∅
    end in
  r_pw ← catch_value_error
           (validate_db_password (field_input data supabase_db_password_field)
                                 info_data);
  let info_data : InfoData :=
    match r_pw with
    | inl (Some v) => <[ "supabase_db_password" := v ]> info_data
    | _ => info_data
    end in
  r_region ← catch_value_error
               (validate_region (str_input data supabase_region_field) info_data);
  let errors :=
    (error_of data supabase_project_ref_field r_ref
       ++ error_of data supabase_db_password_field r_pw
       ++ error_of data supabase_region_field r_region
       ++ extra_errors data)%list in
  match r_ref, r_pw, r_region, errors with
  | inl ref, inl pw, inl region, [] =>
      mret {| supabase_project_ref := ref;
              supabase_db_password := pw;
              supabase_region := region;
              supabase_access_token := field_input data supabase_access_token_field;
              supabase_service_role_key :=
                field_input data supabase_service_role_key_field;
              supabase_api_url := str_input data supabase_api_url_field;
              query_api_key := str_input data query_api_key_field;
              query_api_url := str_input data query_api_url_field |}
  | _, _, _, _ => raise (ValidationError errors)
  end.

(** [SettingsWithConfig()] for [env_file = config_file]. *)
Definition SettingsWithConfig (environ : list (string * string))
    (fs : FileSystem) (config_file : option string) : Eff Settings :=
  model_validate (build_values environ fs config_file).

(** [f"{config_file}"] *)
Definition format_opt (v : option string) : string :=
  match v with Some s => s | None => "None" end.

Definition with_config (environ : list (string * string))
    (fs : FileSystem) (config_file : option string) : Eff Settings :=
  instance ← SettingsWithConfig environ fs config_file;
  let env_vars_present :=
    Py.any (fun var => Py.dict_contains environ var)
           ["SUPABASE_PROJECT_REF"; "SUPABASE_DB_PASSWORD"] in
  _ ← (if env_vars_present && Py.truthy_opt config_file then
         logger.info ("Using environment variables over config file: "
                        ++ format_opt config_file)
       else if env_vars_present then
         logger.info "Using environment variables for configuration"
       else if Py.truthy_opt config_file then
         logger.info ("Using settings from config file: "
                        ++ format_opt config_file)
       else
         logger.info "Using default settings (local development)");
  mret instance.

(** The module's last line: [settings = Settings.with_config(find_config_file())]. *)
Definition load_settings `{PathOps P} (proc : Process P) (fs : FileSystem)
  : Eff Settings :=
  config_file ← find_config_file proc fs ".env";
  with_config (environ proc) fs config_file.

(** *** Concrete runs *)

Definition run {A} (m : Eff A) : Outcome A * Trace := m [].

Definition defaults : Settings :=
  {| supabase_project_ref := "127.0.0.1:54322";
     supabase_db_password := Some "postgres";
     supabase_region := "us-east-1";
     supabase_access_token := None;
     supabase_service_role_key := None;
     supabase_api_url := "https://api.supabase.com";
     query_api_key := "test-key";
     query_api_url := "https://api.thequery.dev/v1" |}.

(** The defaults with another region. *)
Definition with_region_of_defaults (r : string) : Settings :=
  {| supabase_project_ref := "127.0.0.1:54322";
     supabase_db_password := Some "postgres";
     supabase_region := r;
     supabase_access_token := None;
     supabase_service_role_key := None;
     supabase_api_url := "https://api.supabase.com";
     query_api_key := "test-key";
     query_api_url := "https://api.thequery.dev/v1" |}.

Example run_defaults :
  run (with_config [] ∅ None)
  = (Returned defaults,
     [Logged INFO "Using default settings (local development)"]).
Proof. vm_compute. reflexivity. Qed.

Example run_region_precedence :
  run (with_config [("SUPABASE_REGION", "ap-south-1")]
         {[ "/work/.env" := RegularFile [("SUPABASE_REGION", "eu-west-1");
                                          ("QUERY_API_KEY", "k")] ]}
         (Some "/work/.env"))
  = (Returned {| supabase_project_ref := "127.0.0.1:54322";
                 supabase_db_password := Some "postgres";
                 supabase_region := "ap-south-1";
                 supabase_access_token := None;
                 supabase_service_role_key := None;
                 supabase_api_url := "https://api.supabase.com";
                 query_api_key := "k";
                 query_api_url := "https://api.thequery.dev/v1" |},
     [Logged INFO "Using settings from config file: /work/.env"]).
Proof. vm_compute. reflexivity. Qed.

Example run_remote_no_password :
  run (with_config [("SUPABASE_PROJECT_REF", "myproject.supabase.co")] ∅ None)
  = (Raised (ValidationError
       [value_error "supabase_db_password"
          "Database password is required for remote Supabase projects."]),
     [Logged ERROR
        "SUPABASE_DB_PASSWORD is required when connecting to a remote instance"]).
Proof. vm_compute. reflexivity. Qed.

Example run_remote_empty_password :
  run (with_config [("SUPABASE_PROJECT_REF", "myproject.supabase.co");
                    ("SUPABASE_DB_PASSWORD", "")] ∅ None)
  = (Raised (ValidationError
       [value_error "SUPABASE_DB_PASSWORD"
          "Database password is required for remote Supabase projects."]),
     [Logged ERROR
        "SUPABASE_DB_PASSWORD is required when connecting to a remote instance"]).
Proof. vm_compute. reflexivity. Qed.

Example run_remote_passthrough :
  fst (run (with_config [("SUPABASE_PROJECT_REF", "myproject.supabase.co");
                         ("SUPABASE_DB_PASSWORD", "s3cr3t")] ∅ None))
  = Returned {| supabase_project_ref := "myproject.supabase.co";
                supabase_db_password := Some "s3cr3t";
                supabase_region := "us-east-1";
                supabase_access_token := None;
                supabase_service_role_key := None;
                supabase_api_url := "https://api.supabase.com";
                query_api_key := "test-key";
                query_api_url := "https://api.thequery.dev/v1" |}.
Proof. vm_compute. reflexivity. Qed.

(** ** Source precedence *)

(** The value the environment gives for a name, names being matched
    without regard to case. *)
Definition env_lookup (environ : list (string * string)) (n : string)
  : option string :=
  parse_env_vars environ !! n.

(** The value the located config file gives for a name. *)
Definition file_lookup (fs : FileSystem) (config_file : option string)
    (n : string) : option string :=
  read_env_file fs config_file !! n.

(** The value some source supplies for a field: the environment first,
    then the file. *)
Definition supplied (environ : list (string * string)) (fs : FileSystem)
    (config_file : option string) (f : FieldInfo) : option string :=
  match env_lookup environ (env_name f) with
  | Some v => Some v
  | None => file_lookup fs config_file (env_name f)
  end.

(** The value selected for a field: the supplied one, or the default. *)
Definition selected (environ : list (string * string)) (fs : FileSystem)
    (config_file : option string) (f : FieldInfo) : option string :=
  match supplied environ fs config_file f with
  | Some v => Some v
  | None => default_value f
  end.

Definition selected_str (environ : list (string * string)) (fs : FileSystem)
    (config_file : option string) (f : FieldInfo) : string :=
  default "" (selected environ fs config_file f).

(** The config file defines no non-empty variable besides those of the
    schema. *)
Definition no_extra_inputs (fs : FileSystem) (config_file : option string) : Prop :=
  dotenv_extra (read_env_file fs config_file) = ∅.

(** ** Lemmas on the primitives *)

Lemma lower_ascii_idemp c : Py.lower_ascii (Py.lower_ascii c) = Py.lower_ascii c.
Proof. destruct c as [[] [] [] [] [] [] [] []]; reflexivity. Qed.

Lemma lower_idemp s : Py.lower (Py.lower s) = Py.lower s.
Proof.
  induction s as [|c s IH]; simpl; [reflexivity|].
  by rewrite lower_ascii_idemp, IH.
Qed.

Lemma truthy_false s : Py.truthy s = false <-> s = "".
Proof. destruct s; simpl; split; congruence. Qed.

Lemma or_else_truthy v d :
  Py.truthy_opt v = true -> Some (Py.or_else v d) = v.
Proof. destruct v as [s|]; simpl; [|discriminate]. by intros ->. Qed.

Lemma or_else_falsy v d :
  Py.truthy_opt v = false -> Py.or_else v d = d.
Proof. destruct v as [s|]; simpl; [|reflexivity]. by intros ->. Qed.

(** *** The environment as the sources read it *)

Lemma parse_env_vars_snoc items k v :
  parse_env_vars (items ++ [(k, v)]) = <[Py.lower k := v]> (parse_env_vars items).
Proof. unfold parse_env_vars. by rewrite foldl_app. Qed.

(** The last item of a name, in any case, decides. *)
Lemma env_lookup_snoc items k v n :
  env_lookup (items ++ [(k, v)]) n
  = if decide (Py.lower k = n) then Some v else env_lookup items n.
Proof.
  unfold env_lookup. rewrite parse_env_vars_snoc.
  case_decide as Hk.
  - subst n. apply lookup_insert_eq.
  - by apply lookup_insert_ne.
Qed.

Lemma parse_env_vars_lower items k v :
  parse_env_vars items !! k = Some v -> Py.lower k = k.
Proof.
  revert v. induction items as [|[k' v'] items IH] using rev_ind; intros v.
  - unfold parse_env_vars. simpl. by rewrite lookup_empty.
  - rewrite parse_env_vars_snoc. simpl.
    destruct (decide (Py.lower k' = k)) as [<-|Hne].
    + intros _. apply lower_idemp.
    + rewrite lookup_insert_ne by done. apply IH.
Qed.

Lemma read_env_file_lower fs cfg k v :
  read_env_file fs cfg !! k = Some v -> Py.lower k = k.
Proof.
  unfold read_env_file. destruct cfg as [p|]; [|by rewrite lookup_empty].
  destruct (fs !! Posix.of_string p) as [[content|]|];
    try by rewrite lookup_empty.
  apply parse_env_vars_lower.
Qed.

(** A variable set under exactly one spelling is found under its name. *)
Lemma env_lookup_unique items k v :
  (k, v) ∈ items ->
  (forall k' v', (k', v') ∈ items -> Py.lower k' = Py.lower k -> v' = v) ->
  env_lookup items (Py.lower k) = Some v.
Proof.
  induction items as [|[k' v'] items IH] using rev_ind; intros Hin Huniq.
  - by apply elem_of_nil in Hin.
  - rewrite env_lookup_snoc. case_decide as Hk.
    + f_equal. apply (Huniq k' v'); [|done]. apply elem_of_app. right.
      by apply list_elem_of_singleton.
    + apply IH.
      * apply elem_of_app in Hin as [Hin|Hin]; [done|].
        apply list_elem_of_singleton in Hin. by inversion Hin; subst.
      * intros k2 v2 Hin2. apply Huniq. apply elem_of_app. by left.
Qed.

(** *** What the sources hand to the model *)

Section Sources.
Variable vars : gmap string string.

Let entry (f : FieldInfo) : option (string * string) :=
    pair (field_key f) <$> vars !! env_name f.

Lemma source_entries_miss (l : list FieldInfo) k :
    k ∉ field_key <$> l ->
    (list_to_map (omap entry l) : gmap string string) !! k = None.
Proof.
    induction l as [|f l IH]; intros Hk; simpl.
    - apply lookup_empty.
    - rewrite fmap_cons in Hk. apply not_elem_of_cons in Hk as [Hne Hk].
      unfold entry at 1. destruct (vars !! env_name f) as [v|]; simpl; auto.
      rewrite lookup_insert_ne by done. auto.
Qed.

Lemma source_entries_hit (l : list FieldInfo) f :
    NoDup (field_key <$> l) -> f ∈ l ->
    (list_to_map (omap entry l) : gmap string string) !! field_key f
    = vars !! env_name f.
Proof.
    induction l as [|f0 l IH]; intros Hnd Hin.
    - by apply elem_of_nil in Hin.
    - rewrite fmap_cons in Hnd. apply NoDup_cons in Hnd as [Hfresh Hnd].
      simpl. unfold entry at 1.
      apply elem_of_cons in Hin as [->|Hin].
      + destruct (vars !! env_name f0) as [v|]; simpl.
        * apply lookup_insert_eq.
        * by apply source_entries_miss.
      + assert (field_key f0 <> field_key f) as Hkey.
        { intros Heq. apply Hfresh. rewrite Heq.
          by apply list_elem_of_fmap_2. }
        destruct (vars !! env_name f0) as [v|]; simpl.
        * rewrite lookup_insert_ne by done. by apply IH.
        * by apply IH.
Qed.

Lemma field_keys_NoDup : NoDup (field_key <$> model_fields).
Proof. apply (bool_decide_unpack _). by vm_compute. Qed.

Lemma source_values_field f :
    f ∈ model_fields -> source_values vars !! field_key f = vars !! env_name f.
Proof. apply source_entries_hit, field_keys_NoDup. Qed.

Lemma source_values_other k :
    k ∉ field_key <$> model_fields -> source_values vars !! k = None.
Proof. apply source_entries_miss. Qed.

  (** A variable handed on as extra is under no field's key, names of
      the file being lower-cased. *)
Lemma dotenv_extra_key k v :
    (forall k' v', vars !! k' = Some v' -> Py.lower k' = k') ->
    dotenv_extra vars !! k = Some v ->
    k ∉ field_key <$> model_fields.
Proof.
    intros Hlow Hk. unfold dotenv_extra in Hk.
    apply map_lookup_filter_Some in Hk as [Hk [_ Hname]]. simpl in Hname.
    apply Hlow in Hk. intros Hin.
    cbn in Hin.
    repeat (apply elem_of_cons in Hin as [->|Hin];
            [first [discriminate Hk | by vm_compute in Hname]|]).
    by apply elem_of_nil in Hin.
Qed.

End Sources.

Lemma build_values_field environ fs cfg f :
  f ∈ model_fields ->
  build_values environ fs cfg !! field_key f = supplied environ fs cfg f.
Proof.
  intros Hf. unfold build_values, env_settings, dotenv_settings, supplied,
    env_lookup, file_lookup.
  rewrite lookup_union, lookup_union, !source_values_field by done.
  assert (dotenv_extra (read_env_file fs cfg) !! field_key f = None) as ->.
  { destruct (dotenv_extra _ !! _) as [v|] eqn:Hextra; [|done].
    exfalso. eapply dotenv_extra_key; [| exact Hextra |].
    - intros ??. apply read_env_file_lower.
    - by apply list_elem_of_fmap_2. }
  by destruct (parse_env_vars environ !! env_name f),
              (read_env_file fs cfg !! env_name f).
Qed.

Lemma field_input_build environ fs cfg f :
  f ∈ model_fields ->
  field_input (build_values environ fs cfg) f = selected environ fs cfg f.
Proof.
  intros Hf. unfold field_input, selected.
  by rewrite build_values_field.
Qed.

Lemma str_input_build environ fs cfg f :
  f ∈ model_fields ->
  str_input (build_values environ fs cfg) f = selected_str environ fs cfg f.
Proof.
  intros Hf. unfold str_input, selected_str. by rewrite field_input_build.
Qed.

(** *** Extra inputs *)

Lemma extra_errors_nil (data : gmap string string) :
  extra_errors data = []
  <-> forall k v, data !! k = Some v -> k ∈ field_key <$> model_fields.
Proof.
  unfold extra_errors. split.
  - intros Hnil k v Hk. apply elem_of_map_to_list in Hk.
    destruct (decide (k ∈ field_key <$> model_fields)) as [|Hout]; [done|].
    exfalso. eapply elem_of_nil. rewrite <- Hnil.
    apply list_elem_of_omap. exists (k, v). split; [done|]. simpl.
    by rewrite bool_decide_false.
  - intros Hall. destruct (omap _ _) as [|e es] eqn:Hmap; [done|].
    assert (e ∈ e :: es) as Hin by left. rewrite <- Hmap in Hin.
    apply list_elem_of_omap in Hin as [[k v] [Hin Hf]]. simpl in Hf.
    apply elem_of_map_to_list, Hall in Hin.
    by rewrite bool_decide_true in Hf.
Qed.

(** The merged input holds a key of no field exactly when the config
    file defines a non-empty variable that no field reads. *)
Lemma extra_errors_build environ fs cfg :
  extra_errors (build_values environ fs cfg) = [] <-> no_extra_inputs fs cfg.
Proof.
  rewrite extra_errors_nil. unfold no_extra_inputs, build_values,
    env_settings, dotenv_settings.
  set (vars := read_env_file fs cfg).
  assert (forall k v, vars !! k = Some v -> Py.lower k = k) as Hlow.
  { intros ??. apply read_env_file_lower. }
  split.
  - intros Hall. apply map_empty. intros k.
    destruct (dotenv_extra vars !! k) as [v|] eqn:Hk; [|done].
    exfalso. pose proof (dotenv_extra_key _ _ _ Hlow Hk) as Hout.
    apply Hout, (Hall k v).
    rewrite !lookup_union, !source_values_other, Hk by done. done.
  - intros Hnone k v. rewrite Hnone, (right_id_L ∅ (∪)).
    destruct (decide (k ∈ field_key <$> model_fields)) as [|Hout]; [done|].
    by rewrite lookup_union, !source_values_other.
Qed.

(** *** Outcomes of the validators *)

Lemma validate_project_ref_ok v t :
  Py.truthy v = true -> validate_project_ref v t = (Returned v, t).
Proof. unfold validate_project_ref. by intros ->. Qed.

Lemma validate_project_ref_empty t :
  validate_project_ref "" t
  = (Raised (ValueError "SUPABASE_PROJECT_REF cannot be empty."), t).
Proof. reflexivity. Qed.

Definition password_required_log : Event :=
  Logged ERROR
    "SUPABASE_DB_PASSWORD is required when connecting to a remote instance".

Definition password_required_error : ErrorDetail :=
  value_error "SUPABASE_DB_PASSWORD"
    "Database password is required for remote Supabase projects.".

Definition project_ref_empty_error : ErrorDetail :=
  value_error "SUPABASE_PROJECT_REF" "SUPABASE_PROJECT_REF cannot be empty.".

(** The password error when no password was given at all: the default
    was validated, and the error is located at the field's name. *)
Definition password_missing_error : ErrorDetail :=
  value_error "supabase_db_password"
    "Database password is required for remote Supabase projects.".

(** The password error for a given input of the field. *)
Definition password_error (v : option string) : ErrorDetail :=
  match v with
  | Some _ => password_required_error
  | None => password_missing_error
  end.

Lemma validate_db_password_local v (info_data : InfoData) ref t :
  info_data !! "supabase_project_ref" = Some ref ->
  Py.startswith ref "127.0.0.1" = true ->
  validate_db_password v info_data t
  = (Returned (Some (Py.or_else v "postgres")), t).
Proof. unfold validate_db_password. intros -> Hloc. simpl. by rewrite Hloc. Qed.

Lemma validate_db_password_remote_ok v (info_data : InfoData) t :
  Py.startswith (default "" (info_data !! "supabase_project_ref")) "127.0.0.1"
    = false ->
  Py.truthy_opt v = true ->
  validate_db_password v info_data t = (Returned v, t).
Proof. unfold validate_db_password. by intros -> ->. Qed.

Lemma validate_db_password_remote_missing v (info_data : InfoData) t :
  Py.startswith (default "" (info_data !! "supabase_project_ref")) "127.0.0.1"
    = false ->
  Py.truthy_opt v = false ->
  validate_db_password v info_data t
  = (Raised (ValueError "Database password is required for remote Supabase projects."),
     (t ++ [password_required_log])%list).
Proof. unfold validate_db_password. by intros -> ->. Qed.

(** *** The decision table of [model_validate] *)

(** The instance built from valid inputs, given the validated password. *)
Definition instance_of (data : gmap string string) (pw : option string) : Settings :=
  {| supabase_project_ref := str_input data supabase_project_ref_field;
     supabase_db_password := pw;
     supabase_region := str_input data supabase_region_field;
     supabase_access_token := field_input data supabase_access_token_field;
     supabase_service_role_key := field_input data supabase_service_role_key_field;
     supabase_api_url := str_input data supabase_api_url_field;
     query_api_key := str_input data query_api_key_field;
     query_api_url := str_input data query_api_url_field |}.

Definition finish (data : gmap string string) (pw : option string) (t : Trace)
  : Outcome Settings * Trace :=
  match extra_errors data with
  | [] => (Returned (instance_of data pw), t)
  | errs => (Raised (ValidationError errs), t)
  end.

Lemma model_validate_table data t :
  let ref := str_input data supabase_project_ref_field in
  let pw := field_input data supabase_db_password_field in
  model_validate data t =
    if Py.truthy ref then
      if Py.startswith ref "127.0.0.1" then
        finish data (Some (Py.or_else pw "postgres")) t
      else if Py.truthy_opt pw then finish data pw t
      else (Raised (ValidationError
                      (password_error pw :: extra_errors data)),
            (t ++ [password_required_log])%list)
    else if Py.truthy_opt pw then
      (Raised (ValidationError (project_ref_empty_error :: extra_errors data)), t)
    else
      (Raised (ValidationError
                 (project_ref_empty_error :: password_error pw
                    :: extra_errors data)),
       (t ++ [password_required_log])%list).
Proof.
  intros ref pw. unfold model_validate, finish, instance_of.
  fold ref. fold pw.
  assert (Py.truthy ref = false ->
          error_loc data supabase_project_ref_field = "SUPABASE_PROJECT_REF")
    as Hrefloc.
  { unfold ref, str_input, field_input, error_loc.
    cbn [field_key alias name default_value supabase_project_ref_field
         default from_option id].
    by destruct (data !! "SUPABASE_PROJECT_REF"). }
  assert (value_error (error_loc data supabase_db_password_field)
            "Database password is required for remote Supabase projects."
          = password_error pw) as Hpwloc.
  { unfold pw, field_input, error_loc.
    cbn [field_key alias name default_value supabase_db_password_field
         default from_option id].
    by destruct (data !! "SUPABASE_DB_PASSWORD"). }
  unfold error_of. revert Hrefloc Hpwloc.
  generalize (error_loc data supabase_project_ref_field)
             (error_loc data supabase_db_password_field)
             (password_error pw)
             (str_input data supabase_region_field)
             (field_input data supabase_access_token_field)
             (field_input data supabase_service_role_key_field)
             (str_input data supabase_api_url_field)
             (str_input data query_api_key_field)
             (str_input data query_api_url_field)
             (extra_errors data).
  intros refloc pwloc pwerr region token key url qkey qurl extras
    Hrefloc Hpwloc.
  unfold mbind, Eff_bind, catch_value_error, validate_project_ref,
    validate_db_password, validate_region, mret, Eff_ret, raise,
    logger.error, emit.
  destruct (Py.truthy ref) eqn:Href; simpl.
  - rewrite lookup_singleton_eq. simpl.
    destruct (Py.startswith ref "127.0.0.1") eqn:Hloc; simpl.
    + by destruct extras.
    + destruct (Py.truthy_opt pw) eqn:Hpw; simpl; [|by rewrite Hpwloc].
      destruct pw as [s|]; [|discriminate]. by destruct extras.
  - rewrite lookup_empty. simpl. rewrite (Hrefloc eq_refl).
    destruct (Py.truthy_opt pw) eqn:Hpw; simpl; [|by rewrite Hpwloc].
    by destruct pw.
Qed.

(** *** [with_config]: construction, then one log line *)

(** The test [any(var in os.environ for var in [...])] of [with_config]. *)
Definition env_vars_present (environ : list (string * string)) : bool :=
  Py.any (fun var => Py.dict_contains environ var)
         ["SUPABASE_PROJECT_REF"; "SUPABASE_DB_PASSWORD"].

(** The line [with_config] logs after a successful construction. *)
Definition source_line (environ : list (string * string))
    (config_file : option string) : string :=
  if env_vars_present environ && Py.truthy_opt config_file then
    "Using environment variables over config file: " ++ format_opt config_file
  else if env_vars_present environ then
    "Using environment variables for configuration"
  else if Py.truthy_opt config_file then
    "Using settings from config file: " ++ format_opt config_file
  else "Using default settings (local development)".

Lemma with_config_unfold environ fs cfg t :
  with_config environ fs cfg t =
    match SettingsWithConfig environ fs cfg t with
    | (Returned s, t') =>
        (Returned s, (t' ++ [Logged INFO (source_line environ cfg)])%list)
    | (Raised e, t') => (Raised e, t')
    end.
Proof.
  unfold with_config, source_line. fold (env_vars_present environ).
  unfold mbind, Eff_bind.
  destruct (SettingsWithConfig environ fs cfg t) as [[s|e] t']; [|done].
  destruct (env_vars_present environ), (Py.truthy_opt cfg); reflexivity.
Qed.

(** The inputs of the two validated fields, by source. *)
Lemma SettingsWithConfig_table environ fs cfg t :
  let data := build_values environ fs cfg in
  let ref := selected_str environ fs cfg supabase_project_ref_field in
  let pw := supplied environ fs cfg supabase_db_password_field in
  SettingsWithConfig environ fs cfg t =
    if Py.truthy ref then
      if Py.startswith ref "127.0.0.1" then
        finish data (Some (Py.or_else pw "postgres")) t
      else if Py.truthy_opt pw then finish data pw t
      else (Raised (ValidationError
                      (password_error pw :: extra_errors data)),
            (t ++ [password_required_log])%list)
    else if Py.truthy_opt pw then
      (Raised (ValidationError (project_ref_empty_error :: extra_errors data)), t)
    else
      (Raised (ValidationError
                 (project_ref_empty_error :: password_error pw
                    :: extra_errors data)),
       (t ++ [password_required_log])%list).
Proof.
  intros data ref pw. unfold SettingsWithConfig. fold data.
  rewrite model_validate_table.
  assert (str_input data supabase_project_ref_field = ref) as ->.
  { apply str_input_build. set_solver. }
  assert (field_input data supabase_db_password_field = pw) as ->.
  { unfold data. rewrite field_input_build by set_solver.
    unfold selected. fold pw. by destruct pw. }
  reflexivity.
Qed.

(** A successful construction: the outcome, the untouched trace and the
    conditions under which it happens. *)
Lemma SettingsWithConfig_returned environ fs cfg t s t' :
  SettingsWithConfig environ fs cfg t = (Returned s, t') ->
  t' = t
  /\ no_extra_inputs fs cfg
  /\ Py.truthy (selected_str environ fs cfg supabase_project_ref_field) = true
  /\ s = instance_of (build_values environ fs cfg)
           (Some (Py.or_else (supplied environ fs cfg supabase_db_password_field)
                             "postgres")).
Proof.
  rewrite SettingsWithConfig_table. unfold finish.
  set (ref := selected_str environ fs cfg supabase_project_ref_field).
  set (pw := supplied environ fs cfg supabase_db_password_field).
  destruct (Py.truthy ref) eqn:Href.
  2:{ destruct (Py.truthy_opt pw); discriminate. }
  destruct (extra_errors _) as [|e es] eqn:Hextra.
  2:{ destruct (Py.startswith ref _); [discriminate|].
      destruct (Py.truthy_opt pw); discriminate. }
  apply extra_errors_build in Hextra.
  destruct (Py.startswith ref _).
  - intros [= <- <-]. done.
  - destruct (Py.truthy_opt pw) eqn:Hpw; [|discriminate].
    intros [= <- <-]. by rewrite (or_else_truthy _ _ Hpw).
Qed.

Lemma SettingsWithConfig_succeeds environ fs cfg t :
  no_extra_inputs fs cfg ->
  Py.truthy (selected_str environ fs cfg supabase_project_ref_field) = true ->
  Py.startswith (selected_str environ fs cfg supabase_project_ref_field)
                "127.0.0.1" = true
  \/ Py.truthy_opt (supplied environ fs cfg supabase_db_password_field) = true ->
  SettingsWithConfig environ fs cfg t
  = (Returned (instance_of (build_values environ fs cfg)
                 (Some (Py.or_else
                          (supplied environ fs cfg supabase_db_password_field)
                          "postgres"))), t).
Proof.
  intros Hextra Href Hpw. rewrite SettingsWithConfig_table, Href. unfold finish.
  rewrite (proj2 (extra_errors_build environ fs cfg) Hextra).
  destruct (Py.startswith _ _); [done|].
  destruct Hpw as [|Hpw]; [done|]. by rewrite Hpw, (or_else_truthy _ _ Hpw).
Qed.

(** The attributes of the instance, by field. *)
Lemma getattr_instance_of environ fs cfg pw f :
  f ∈ model_fields ->
  name f <> "supabase_db_password" ->
  getattr (instance_of (build_values environ fs cfg) pw) (name f)
  = selected environ fs cfg f.
Proof.
  intros Hf Hname. unfold model_fields in Hf.
  assert (forall g, g ∈ model_fields -> is_Some (default_value g)
          -> Some (str_input (build_values environ fs cfg) g)
             = selected environ fs cfg g) as Hstr.
  { intros g Hg [d Hd]. unfold str_input.
    rewrite field_input_build by done. unfold selected.
    destruct (supplied _ _ _ g); simpl; [done|]. by rewrite Hd. }
  repeat (apply elem_of_cons in Hf as [->|Hf]);
    try (by apply elem_of_nil in Hf); try done; cbn [getattr name String.eqb];
    simpl;
    first [ apply Hstr; [set_solver | by eexists]
          | apply field_input_build; set_solver ].
Qed.

Lemma instance_of_build environ fs cfg pw :
  instance_of (build_values environ fs cfg) pw =
  {| supabase_project_ref := selected_str environ fs cfg supabase_project_ref_field;
     supabase_db_password := pw;
     supabase_region := selected_str environ fs cfg supabase_region_field;
     supabase_access_token := selected environ fs cfg supabase_access_token_field;
     supabase_service_role_key :=
       selected environ fs cfg supabase_service_role_key_field;
     supabase_api_url := selected_str environ fs cfg supabase_api_url_field;
     query_api_key := selected_str environ fs cfg query_api_key_field;
     query_api_url := selected_str environ fs cfg query_api_url_field |}.
Proof.
  unfold instance_of.
  rewrite !str_input_build, !field_input_build by set_solver. reflexivity.
Qed.

(** *** Presence in [os.environ] and the sources' view of it *)

Lemma env_lookup_member items k v :
  (k, v) ∈ items -> is_Some (env_lookup items (Py.lower k)).
Proof.
  induction items as [|[k' v'] items IH] using rev_ind; intros Hin.
  - by apply elem_of_nil in Hin.
  - rewrite env_lookup_snoc. case_decide; [by eexists|].
    apply IH. apply elem_of_app in Hin as [Hin|Hin]; [done|].
    apply list_elem_of_singleton in Hin. by inversion Hin; subst.
Qed.

Lemma dict_contains_env_lookup items k :
  Py.dict_contains items k = true -> is_Some (env_lookup items (Py.lower k)).
Proof.
  unfold Py.dict_contains, Py.dict_get. intros Hc.
  apply bool_decide_eq_true in Hc as [v Hv].
  destruct (List.find _ items) as [[k' v']|] eqn:Hfind; [|discriminate].
  apply List.find_some in Hfind as [Hin Heq]. simpl in Heq.
  apply String.eqb_eq in Heq as ->.
  apply (env_lookup_member items k v'). by apply list_elem_of_In.
Qed.

Lemma env_vars_present_false environ :
  env_lookup environ (env_name supabase_project_ref_field) = None ->
  env_lookup environ (env_name supabase_db_password_field) = None ->
  env_vars_present environ = false.
Proof.
  intros Href Hpw. unfold env_vars_present, Py.any. cbn [existsb].
  destruct (Py.dict_contains environ "SUPABASE_PROJECT_REF") eqn:H1.
  { apply dict_contains_env_lookup in H1 as [v Hv].
    change (Py.lower "SUPABASE_PROJECT_REF")
      with (env_name supabase_project_ref_field) in Hv. congruence. }
  destruct (Py.dict_contains environ "SUPABASE_DB_PASSWORD") eqn:H2.
  { apply dict_contains_env_lookup in H2 as [v Hv].
    change (Py.lower "SUPABASE_DB_PASSWORD")
      with (env_name supabase_db_password_field) in Hv. congruence. }
  reflexivity.
Qed.

Lemma no_extra_inputs_no_file fs : no_extra_inputs fs None.
Proof. unfold no_extra_inputs, dotenv_extra. simpl. apply map_filter_empty. Qed.

Lemma selected_no_source environ fs f :
  env_lookup environ (env_name f) = None ->
  selected environ fs None f = default_value f.
Proof.
  intros Henv. unfold selected, supplied, file_lookup. rewrite Henv. simpl.
  by rewrite lookup_empty.
Qed.

(** * Properties *)

(** C3, as the code has it. With no variable of the environment read by
    a field, under any spelling of its name, and no config
    file located, resolution succeeds with the declared defaults:
    project reference [127.0.0.1:54322], region [us-east-1] and, the
    project reference being on the loopback, password [postgres]. *)
Theorem defaults_without_sources environ fs t :
  (forall f, f ∈ model_fields -> env_lookup environ (env_name f) = None) ->
  with_config environ fs None t
  = (Returned defaults,
     (t ++ [Logged INFO "Using default settings (local development)"])%list)
  /\ supabase_project_ref defaults = "127.0.0.1:54322"
  /\ supabase_region defaults = "us-east-1"
  /\ supabase_db_password defaults = Some "postgres".
Proof.
  intros Hunset. split; [|done].
  assert (forall f, f ∈ model_fields ->
            selected environ fs None f = default_value f) as Hsel.
  { intros f Hf. by apply selected_no_source, Hunset. }
  assert (supplied environ fs None supabase_db_password_field = None) as Hpw.
  { specialize (Hsel supabase_db_password_field ltac:(set_solver)).
    unfold selected in Hsel. by destruct (supplied _ _ _ _). }
  rewrite with_config_unfold, SettingsWithConfig_succeeds.
  - rewrite instance_of_build, Hpw. unfold selected_str.
    rewrite !Hsel by set_solver. unfold source_line.
    rewrite env_vars_present_false by (apply Hunset; set_solver).
    reflexivity.
  - apply no_extra_inputs_no_file.
  - unfold selected_str. by rewrite Hsel by set_solver.
  - left. unfold selected_str. by rewrite Hsel by set_solver.
Qed.

Lemma defaults_without_sources_witness :
  with_config [("PATH", "/usr/bin")] ∅ None []
  = (Returned defaults,
     [Logged INFO "Using default settings (local development)"]).
Proof.
  apply (defaults_without_sources [("PATH", "/usr/bin")] ∅ []).
  intros f Hf. unfold model_fields in Hf.
  repeat (apply elem_of_cons in Hf as [->|Hf]; [by vm_compute|]).
  by apply elem_of_nil in Hf.
Defined.

(** *** Validation failures *)

(** The errors raised before those on extra inputs: the empty project
    reference, if it is, then the missing password. *)
Definition ref_errors (ref : string) : list ErrorDetail :=
  if Py.truthy ref then [] else [project_ref_empty_error].

(** Off the loopback a falsy password, absent or empty, is logged and
    refused. *)
Lemma remote_falsy_password environ fs cfg t :
  Py.startswith (selected_str environ fs cfg supabase_project_ref_field)
                "127.0.0.1" = false ->
  Py.truthy_opt (supplied environ fs cfg supabase_db_password_field) = false ->
  with_config environ fs cfg t
  = (Raised (ValidationError
       (ref_errors (selected_str environ fs cfg supabase_project_ref_field)
          ++ password_error (supplied environ fs cfg supabase_db_password_field)
          :: extra_errors (build_values environ fs cfg))%list),
     (t ++ [password_required_log])%list).
Proof.
  intros Hremote Hpw.
  rewrite with_config_unfold, SettingsWithConfig_table, Hremote, Hpw.
  unfold ref_errors. by destruct (Py.truthy _).
Qed.

(** C2. When the selected project reference does not start with
    [127.0.0.1] and no source supplies a database password, resolution
    raises a [ValidationError] that carries the password error (located at
    the field's name, the validated value being the default), after
    logging the failure: the trace grows by exactly that one error line. *)
Theorem remote_password_required environ fs cfg t :
  Py.startswith (selected_str environ fs cfg supabase_project_ref_field)
                "127.0.0.1" = false ->
  supplied environ fs cfg supabase_db_password_field = None ->
  exists errors,
    with_config environ fs cfg t
    = (Raised (ValidationError errors), (t ++ [password_required_log])%list)
    /\ password_missing_error ∈ errors.
Proof.
  intros Hremote Hpw. eexists. split.
  - apply remote_falsy_password; [done|]. by rewrite Hpw.
  - rewrite Hpw. apply elem_of_app. right. left.
Qed.

Lemma remote_password_required_witness :
  exists errors,
    with_config [("SUPABASE_PROJECT_REF", "myproject.supabase.co")] ∅ None []
    = (Raised (ValidationError errors), [password_required_log])
    /\ password_missing_error ∈ errors.
Proof.
  apply (remote_password_required
           [("SUPABASE_PROJECT_REF", "myproject.supabase.co")] ∅ None []).
  - vm_compute. reflexivity.
  - vm_compute. reflexivity.
Defined.

(** C10. When the selected project reference does not start with
    [127.0.0.1] and the password is supplied as the empty string,
    resolution raises a [ValidationError] with the password error, as for
    an absent password: the empty value is not passed through. *)
Theorem remote_empty_password_refused environ fs cfg t :
  Py.startswith (selected_str environ fs cfg supabase_project_ref_field)
                "127.0.0.1" = false ->
  supplied environ fs cfg supabase_db_password_field = Some "" ->
  exists errors,
    with_config environ fs cfg t
    = (Raised (ValidationError errors), (t ++ [password_required_log])%list)
    /\ password_required_error ∈ errors.
Proof.
  intros Hremote Hpw. eexists. split.
  - apply remote_falsy_password; [done|]. by rewrite Hpw.
  - rewrite Hpw. apply elem_of_app. right. left.
Qed.

Lemma remote_empty_password_refused_witness :
  exists errors,
    with_config [("SUPABASE_PROJECT_REF", "myproject.supabase.co");
                 ("SUPABASE_DB_PASSWORD", "")] ∅ None []
    = (Raised (ValidationError errors), [password_required_log])
    /\ password_required_error ∈ errors.
Proof.
  apply (remote_empty_password_refused
           [("SUPABASE_PROJECT_REF", "myproject.supabase.co");
            ("SUPABASE_DB_PASSWORD", "")] ∅ None []).
  - vm_compute. reflexivity.
  - vm_compute. reflexivity.
Defined.

(** C5. When the selected project reference is the empty string,
    resolution raises a [ValidationError] whose first error is the one on
    the project reference, whatever the other fields are. *)
Theorem empty_project_ref_refused environ fs cfg t :
  selected_str environ fs cfg supabase_project_ref_field = "" ->
  exists errors t',
    with_config environ fs cfg t
    = (Raised (ValidationError (project_ref_empty_error :: errors)), t').
Proof.
  intros Hempty.
  rewrite with_config_unfold, SettingsWithConfig_table, Hempty. simpl.
  destruct (Py.truthy_opt _); eauto.
Qed.

Lemma empty_project_ref_refused_witness :
  exists errors t',
    with_config [("SUPABASE_PROJECT_REF", "");
                 ("SUPABASE_DB_PASSWORD", "s3cr3t");
                 ("SUPABASE_REGION", "eu-west-1")] ∅ None []
    = (Raised (ValidationError (project_ref_empty_error :: errors)), t').
Proof.
  apply (empty_project_ref_refused
           [("SUPABASE_PROJECT_REF", "");
            ("SUPABASE_DB_PASSWORD", "s3cr3t");
            ("SUPABASE_REGION", "eu-west-1")] ∅ None []).
  vm_compute. reflexivity.
Defined.

(** *** The password on the loopback *)

Lemma startswith_truthy s p :
  Py.startswith s p = true -> Py.truthy p = true -> Py.truthy s = true.
Proof. destruct p, s; simpl; congruence. Qed.

Lemma with_config_returned environ fs cfg t s t' :
  with_config environ fs cfg t = (Returned s, t') ->
  SettingsWithConfig environ fs cfg t = (Returned s, t)
  /\ t' = (t ++ [Logged INFO (source_line environ cfg)])%list.
Proof.
  rewrite with_config_unfold.
  destruct (SettingsWithConfig environ fs cfg t) as [[s0|e] t0] eqn:Hrun;
    [|discriminate].
  intros [= <- <-].
  apply SettingsWithConfig_returned in Hrun as [-> _]. done.
Qed.

(** C4, as the code has it. When the selected project reference starts
    with [127.0.0.1], resolution succeeds whenever the config file brings
    no extra input, and in every resolved settings the password is
    [postgres] if no source supplies one or the supplied one is empty, and
    the supplied value unchanged if it is not empty. *)
Theorem loopback_password environ fs cfg t :
  Py.startswith (selected_str environ fs cfg supabase_project_ref_field)
                "127.0.0.1" = true ->
  (no_extra_inputs fs cfg ->
   exists s, with_config environ fs cfg t
             = (Returned s, (t ++ [Logged INFO (source_line environ cfg)])%list))
  /\ forall s t',
       with_config environ fs cfg t = (Returned s, t') ->
       (supplied environ fs cfg supabase_db_password_field = None ->
        supabase_db_password s = Some "postgres")
       /\ (supplied environ fs cfg supabase_db_password_field = Some "" ->
           supabase_db_password s = Some "postgres")
       /\ (forall v, supplied environ fs cfg supabase_db_password_field = Some v ->
                     v <> "" -> supabase_db_password s = Some v).
Proof.
  intros Hloop. split.
  - intros Hextra. eexists.
    rewrite with_config_unfold, SettingsWithConfig_succeeds; eauto.
    by eapply startswith_truthy.
  - intros s t' Hrun.
    apply with_config_returned in Hrun as [Hrun _].
    apply SettingsWithConfig_returned in Hrun as (_ & _ & _ & ->). simpl.
    split; [|split].
    + by intros ->.
    + by intros ->.
    + intros v -> Hv. simpl. destruct v; [done|reflexivity].
Qed.

Lemma loopback_password_witness :
  exists s, with_config [("SUPABASE_DB_PASSWORD", "s3cr3t")] ∅ None []
            = (Returned s,
               [Logged INFO
                  (source_line [("SUPABASE_DB_PASSWORD", "s3cr3t")] None)])
            /\ supabase_db_password s = Some "s3cr3t".
Proof.
  destruct (loopback_password [("SUPABASE_DB_PASSWORD", "s3cr3t")] ∅ None [])
    as [Hok Hpw].
  - vm_compute. reflexivity.
  - destruct (Hok (no_extra_inputs_no_file ∅)) as [s Hs].
    exists s. split; [exact Hs|].
    destruct (Hpw s _ Hs) as (_ & _ & Hv).
    apply Hv; [vm_compute; reflexivity | discriminate].
Defined.

(** C4 as stated fails: an explicitly supplied empty password is not
    passed through on the loopback. *)
Lemma loopback_password_counterexample :
  ~ (forall environ fs cfg t s t',
       Py.startswith (selected_str environ fs cfg supabase_project_ref_field)
                     "127.0.0.1" = true ->
       with_config environ fs cfg t = (Returned s, t') ->
       (supplied environ fs cfg supabase_db_password_field = None ->
        supabase_db_password s = Some "postgres")
       /\ (forall v, supplied environ fs cfg supabase_db_password_field = Some v ->
                     supabase_db_password s = Some v)).
Proof.
  intros Hall.
  destruct (Hall [("SUPABASE_DB_PASSWORD", "")] ∅ None []
              {| supabase_project_ref := "127.0.0.1:54322";
                 supabase_db_password := Some "postgres";
                 supabase_region := "us-east-1";
                 supabase_access_token := None;
                 supabase_service_role_key := None;
                 supabase_api_url := "https://api.supabase.com";
                 query_api_key := "test-key";
                 query_api_url := "https://api.thequery.dev/v1" |}
              [Logged INFO "Using environment variables for configuration"])
    as [_ Hpass].
  - vm_compute. reflexivity.
  - vm_compute. reflexivity.
  - specialize (Hpass "" ltac:(vm_compute; reflexivity)). discriminate Hpass.
Qed.

(** *** Precedence of the sources *)

(** C1, as the code has it. In every resolved settings, each field other
    than the database password has the value its name has in the
    environment (names matched without regard to case; the platform API
    URL under its field name), else the value the located config file
    gives that name, else the declared default, field by field. The
    database password is selected by the same precedence and then passed
    through its validator: a selected password that is absent or empty
    resolves to [postgres]. *)
Theorem precedence_per_field environ fs cfg t s t' :
  with_config environ fs cfg t = (Returned s, t') ->
  (forall f, f ∈ model_fields -> name f <> "supabase_db_password" ->
     getattr s (name f)
     = match env_lookup environ (env_name f) with
       | Some v => Some v
       | None =>
           match file_lookup fs cfg (env_name f) with
           | Some v => Some v
           | None => default_value f
           end
       end)
  /\ supabase_db_password s
     = Some (Py.or_else
               (match env_lookup environ "supabase_db_password" with
                | Some v => Some v
                | None => file_lookup fs cfg "supabase_db_password"
                end) "postgres").
Proof.
  intros Hrun. apply with_config_returned in Hrun as [Hrun _].
  apply SettingsWithConfig_returned in Hrun as (_ & _ & _ & ->).
  split; [|reflexivity].
  intros f Hf Hname. rewrite getattr_instance_of by done.
  unfold selected, supplied.
  by destruct (env_lookup environ (env_name f)),
              (file_lookup fs cfg (env_name f)).
Qed.

Lemma precedence_per_field_witness :
  let s := {| supabase_project_ref := "127.0.0.1:54322";
              supabase_db_password := Some "postgres";
              supabase_region := "ap-south-1";
              supabase_access_token := None;
              supabase_service_role_key := None;
              supabase_api_url := "https://api.supabase.com";
              query_api_key := "k";
              query_api_url := "https://api.thequery.dev/v1" |} in
  getattr s "supabase_region" = Some "ap-south-1"
  /\ getattr s "query_api_key" = Some "k"
  /\ getattr s "query_api_url" = Some "https://api.thequery.dev/v1".
Proof.
  intros s.
  assert (with_config
            [("SUPABASE_REGION", "ap-south-1")]
            {[ "/work/.env" := RegularFile [("SUPABASE_REGION", "eu-west-1");
                                             ("QUERY_API_KEY", "k")] ]}
            (Some "/work/.env") []
          = (Returned s,
             [Logged INFO "Using settings from config file: /work/.env"]))
    as Hrun by (vm_compute; reflexivity).
  destruct (precedence_per_field _ _ _ _ _ _ Hrun) as [Hfields _].
  split; [|split].
  - refine (eq_trans (Hfields supabase_region_field _ _) _);
      [in_fields | discriminate | vm_compute; reflexivity].
  - refine (eq_trans (Hfields query_api_key_field _ _) _);
      [in_fields | discriminate | vm_compute; reflexivity].
  - refine (eq_trans (Hfields query_api_url_field _ _) _);
      [in_fields | discriminate | vm_compute; reflexivity].
Defined.

(** C1 as stated fails for the database password: with nothing set its
    declared default is [None], and the resolved value is [postgres]. *)
Lemma precedence_per_field_counterexample :
  ~ (forall environ fs cfg t s t' f,
       with_config environ fs cfg t = (Returned s, t') ->
       f ∈ model_fields ->
       getattr s (name f) = selected environ fs cfg f).
Proof.
  intros Hall.
  specialize (Hall [] ∅ None [] defaults
                [Logged INFO "Using default settings (local development)"]
                supabase_db_password_field run_defaults ltac:(set_solver)).
  vm_compute in Hall. discriminate Hall.
Qed.

(** *** The informational line *)

(** C7, as the code has it. A successful construction adds exactly one
    event to the trace, an informational line chosen by whether
    [SUPABASE_PROJECT_REF] or [SUPABASE_DB_PASSWORD] is in the environment
    and whether a non-empty config file path was given; the settings are
    those of the construction, which has already returned without logging
    when the line is chosen. *)
Theorem one_info_line environ fs cfg t s t' :
  with_config environ fs cfg t = (Returned s, t') ->
  let present :=
    Py.dict_contains environ "SUPABASE_PROJECT_REF"
    || Py.dict_contains environ "SUPABASE_DB_PASSWORD" in
  let line :=
    match present, Py.truthy_opt cfg with
    | true, true =>
        "Using environment variables over config file: " ++ format_opt cfg
    | true, false => "Using environment variables for configuration"
    | false, true => "Using settings from config file: " ++ format_opt cfg
    | false, false => "Using default settings (local development)"
    end in
  t' = (t ++ [Logged INFO line])%list
  /\ SettingsWithConfig environ fs cfg t = (Returned s, t)
  /\ s = instance_of (build_values environ fs cfg)
           (Some (Py.or_else (supplied environ fs cfg supabase_db_password_field)
                             "postgres")).
Proof.
  intros Hrun present line.
  apply with_config_returned in Hrun as [Hrun ->].
  split; [|split; [exact Hrun|]].
  - do 3 f_equal. unfold source_line, env_vars_present, Py.any, line, present.
    cbn [existsb]. rewrite orb_false_r.
    by destruct (_ || _), (Py.truthy_opt cfg).
  - by apply SettingsWithConfig_returned in Hrun as (_ & _ & _ & ->).
Qed.

Lemma one_info_line_witness :
  let s := {| supabase_project_ref := "127.0.0.1:54322";
              supabase_db_password := Some "s3cr3t";
              supabase_region := "eu-west-1";
              supabase_access_token := None;
              supabase_service_role_key := None;
              supabase_api_url := "https://api.supabase.com";
              query_api_key := "test-key";
              query_api_url := "https://api.thequery.dev/v1" |} in
  let fs : FileSystem :=
    {[ "/work/.env" := RegularFile [("SUPABASE_REGION", "eu-west-1")] ]} in
  let line := "Using environment variables over config file: /work/.env" in
  with_config [("SUPABASE_DB_PASSWORD", "s3cr3t")] fs (Some "/work/.env") []
  = (Returned s, [Logged INFO line])
  /\ [Logged INFO line] = ([] ++ [Logged INFO line])%list
  /\ SettingsWithConfig [("SUPABASE_DB_PASSWORD", "s3cr3t")] fs
       (Some "/work/.env") [] = (Returned s, []).
Proof.
  intros s fs line.
  assert (with_config [("SUPABASE_DB_PASSWORD", "s3cr3t")] fs
            (Some "/work/.env") []
          = (Returned s, [Logged INFO line]))
    as Hrun by (vm_compute; reflexivity).
  split; [exact Hrun|].
  destruct (one_info_line _ _ _ _ _ _ Hrun) as (Htrace & Hbuilt & _).
  split; [exact Htrace | exact Hbuilt].
Defined.

(** The environment variables the specification lists as recognized. *)
Definition spec_recognized_variables : list string :=
  [ "SUPABASE_PROJECT_REF"; "SUPABASE_DB_PASSWORD"; "SUPABASE_REGION";
    "SUPABASE_ACCESS_TOKEN"; "SUPABASE_SERVICE_ROLE_KEY";
    "QUERY_API_KEY"; "QUERY_API_URL" ].

(** The line the specification describes: chosen by whether any
    recognized variable is present and whether a config file was given. *)
Definition spec_source_line (environ : list (string * string))
    (config_file : option string) : string :=
  let present := Py.any (Py.dict_contains environ) spec_recognized_variables in
  match present, Py.truthy_opt config_file with
  | true, true =>
      "Using environment variables over config file: " ++ format_opt config_file
  | true, false => "Using environment variables for configuration"
  | false, true => "Using settings from config file: " ++ format_opt config_file
  | false, false => "Using default settings (local development)"
  end.

(** C7 as stated fails: with only [SUPABASE_REGION] in the environment
    and no file, the line is the one for defaults. *)
Lemma one_info_line_counterexample :
  ~ (forall environ fs cfg t s t',
       with_config environ fs cfg t = (Returned s, t') ->
       t' = (t ++ [Logged INFO (spec_source_line environ cfg)])%list).
Proof.
  intros Hall.
  assert (with_config [("SUPABASE_REGION", "eu-west-1")] ∅ None []
          = (Returned {| supabase_project_ref := "127.0.0.1:54322";
                         supabase_db_password := Some "postgres";
                         supabase_region := "eu-west-1";
                         supabase_access_token := None;
                         supabase_service_role_key := None;
                         supabase_api_url := "https://api.supabase.com";
                         query_api_key := "test-key";
                         query_api_url := "https://api.thequery.dev/v1" |},
             [Logged INFO "Using default settings (local development)"]))
    as Hrun by (vm_compute; reflexivity).
  apply Hall in Hrun. vm_compute in Hrun. discriminate Hrun.
Qed.

(** *** The platform API URL *)

(** C8, as the code has it. The platform API URL is declared without
    alias, so the sources read it under its field name
    [supabase_api_url], matched without regard to case: two resolutions
    over the same config file whose environments give that name the same
    value resolve the same URL, which is the environment's value when it
    gives one, else the file's, else [https://api.supabase.com]. *)
Theorem api_url_sources env1 env2 fs cfg t1 t2 s1 s2 t1' t2' :
  env_lookup env1 "supabase_api_url" = env_lookup env2 "supabase_api_url" ->
  with_config env1 fs cfg t1 = (Returned s1, t1') ->
  with_config env2 fs cfg t2 = (Returned s2, t2') ->
  alias supabase_api_url_field = None
  /\ env_name supabase_api_url_field = "supabase_api_url"
  /\ supabase_api_url s1 = supabase_api_url s2
  /\ supabase_api_url s1
     = match env_lookup env1 "supabase_api_url" with
       | Some v => v
       | None => default "https://api.supabase.com"
                         (file_lookup fs cfg "supabase_api_url")
       end.
Proof.
  intros Henv Hrun1 Hrun2.
  assert (forall environ t s t',
            with_config environ fs cfg t = (Returned s, t') ->
            supabase_api_url s
            = match env_lookup environ "supabase_api_url" with
              | Some v => v
              | None => default "https://api.supabase.com"
                                (file_lookup fs cfg "supabase_api_url")
              end) as Hurl.
  { intros environ t s t' Hrun.
    apply with_config_returned in Hrun as [Hrun _].
    apply SettingsWithConfig_returned in Hrun as (_ & _ & _ & ->).
    rewrite instance_of_build. cbn [supabase_api_url].
    unfold selected_str, selected, supplied.
    change (env_name supabase_api_url_field) with "supabase_api_url".
    destruct (env_lookup environ "supabase_api_url"); [done|].
    by destruct (file_lookup fs cfg "supabase_api_url"). }
  split; [reflexivity|]. split; [reflexivity|]. split.
  - rewrite (Hurl _ _ _ _ Hrun1), (Hurl _ _ _ _ Hrun2). by rewrite Henv.
  - exact (Hurl _ _ _ _ Hrun1).
Qed.

Lemma api_url_sources_witness :
  let s := {| supabase_project_ref := "127.0.0.1:54322";
              supabase_db_password := Some "postgres";
              supabase_region := "us-east-1";
              supabase_access_token := None;
              supabase_service_role_key := None;
              supabase_api_url := "http://localhost:8000";
              query_api_key := "test-key";
              query_api_url := "https://api.thequery.dev/v1" |} in
  let fs : FileSystem :=
    {[ "/work/.env" := RegularFile [("SUPABASE_API_URL", "http://localhost:8000")] ]} in
  supabase_api_url s = supabase_api_url s
  /\ supabase_api_url s
     = match env_lookup [("HOME", "/home/u")] "supabase_api_url" with
       | Some v => v
       | None => default "https://api.supabase.com"
                         (file_lookup fs (Some "/work/.env") "supabase_api_url")
       end.
Proof.
  intros s fs.
  assert (with_config [("HOME", "/home/u")] fs (Some "/work/.env") []
          = (Returned s,
             [Logged INFO "Using settings from config file: /work/.env"]))
    as Hrun1 by (vm_compute; reflexivity).
  assert (with_config [("PATH", "/usr/bin")] fs (Some "/work/.env") []
          = (Returned s,
             [Logged INFO "Using settings from config file: /work/.env"]))
    as Hrun2 by (vm_compute; reflexivity).
  assert (env_lookup [("HOME", "/home/u")] "supabase_api_url"
          = env_lookup [("PATH", "/usr/bin")] "supabase_api_url")
    as Henv by (vm_compute; reflexivity).
  destruct (api_url_sources _ _ _ _ _ _ _ _ _ _ Henv Hrun1 Hrun2)
    as (_ & _ & Hsame & Hvalue).
  split; [exact Hsame | exact Hvalue].
Defined.

(** C8 as stated fails: the environment variable [SUPABASE_API_URL]
    changes the resolved platform API URL. *)
Lemma api_url_sources_counterexample :
  ~ (forall env1 env2 fs cfg t1 t2 s1 s2 t1' t2',
       with_config env1 fs cfg t1 = (Returned s1, t1') ->
       with_config env2 fs cfg t2 = (Returned s2, t2') ->
       supabase_api_url s1 = supabase_api_url s2).
Proof.
  intros Hall.
  assert (with_config [] ∅ None []
          = (Returned defaults,
             [Logged INFO "Using default settings (local development)"]))
    as Hrun1 by (vm_compute; reflexivity).
  assert (with_config [("SUPABASE_API_URL", "http://localhost:8000")] ∅ None []
          = (Returned {| supabase_project_ref := "127.0.0.1:54322";
                         supabase_db_password := Some "postgres";
                         supabase_region := "us-east-1";
                         supabase_access_token := None;
                         supabase_service_role_key := None;
                         supabase_api_url := "http://localhost:8000";
                         query_api_key := "test-key";
                         query_api_url := "https://api.thequery.dev/v1" |},
             [Logged INFO "Using default settings (local development)"]))
    as Hrun2 by (vm_compute; reflexivity).
  pose proof (Hall _ _ _ _ _ _ _ _ _ _ Hrun1 Hrun2) as Heq.
  cbn [supabase_api_url defaults] in Heq. discriminate Heq.
Qed.

(** C3 as stated fails: with none of the listed variables set, a
    variable spelled [supabase_region] still decides the region. *)
Lemma defaults_without_sources_counterexample :
  ~ (forall environ fs t,
       (forall k, k ∈ spec_recognized_variables ->
                  Py.dict_contains environ k = false) ->
       exists s t',
         with_config environ fs None t = (Returned s, t')
         /\ supabase_project_ref s = "127.0.0.1:54322"
         /\ supabase_region s = "us-east-1"
         /\ supabase_db_password s = Some "postgres").
Proof.
  intros Hall.
  destruct (Hall [("supabase_region", "eu-west-1")] ∅ [])
    as (s & t' & Hrun & _ & Hregion & _).
  { intros k Hk. unfold spec_recognized_variables in Hk.
    repeat (apply elem_of_cons in Hk as [->|Hk]; [reflexivity|]).
    by apply elem_of_nil in Hk. }
  assert (with_config [("supabase_region", "eu-west-1")] ∅ None []
          = (Returned (with_region_of_defaults "eu-west-1"),
             [Logged INFO "Using default settings (local development)"]))
    as Hactual by (vm_compute; reflexivity).
  rewrite Hactual in Hrun. injection Hrun as <- _.
  discriminate Hregion.
Qed.

(** *** Determinism *)

Lemma model_validate_outcome data t1 t2 :
  fst (model_validate data t1) = fst (model_validate data t2).
Proof.
  rewrite !model_validate_table. unfold finish.
  destruct (Py.truthy (str_input data supabase_project_ref_field)),
    (Py.startswith (str_input data supabase_project_ref_field) "127.0.0.1"),
    (Py.truthy_opt (field_input data supabase_db_password_field)),
    (extra_errors data); reflexivity.
Qed.

Lemma with_config_outcome environ fs cfg t :
  fst (with_config environ fs cfg t) = fst (SettingsWithConfig environ fs cfg t).
Proof.
  rewrite with_config_unfold.
  by destruct (SettingsWithConfig environ fs cfg t) as [[s|e] t'].
Qed.

(** C9. Resolution is a function of what the sources read: two
    invocations over the same environment and config files of the same
    contents, at whatever paths and whatever was logged before, have the
    same outcome; when both return settings, these are equal, so equal
    field by field. *)
Theorem resolution_deterministic env1 env2 fs1 fs2 cfg1 cfg2 t1 t2 :
  parse_env_vars env1 = parse_env_vars env2 ->
  read_env_file fs1 cfg1 = read_env_file fs2 cfg2 ->
  fst (with_config env1 fs1 cfg1 t1) = fst (with_config env2 fs2 cfg2 t2)
  /\ forall s1 s2 t1' t2',
       with_config env1 fs1 cfg1 t1 = (Returned s1, t1') ->
       with_config env2 fs2 cfg2 t2 = (Returned s2, t2') ->
       s1 = s2
       /\ forall f, f ∈ model_fields -> getattr s1 (name f) = getattr s2 (name f).
Proof.
  intros Henv Hfile.
  assert (fst (with_config env1 fs1 cfg1 t1)
          = fst (with_config env2 fs2 cfg2 t2)) as Hsame.
  { rewrite !with_config_outcome. unfold SettingsWithConfig.
    assert (build_values env1 fs1 cfg1 = build_values env2 fs2 cfg2) as ->.
    { unfold build_values, env_settings, dotenv_settings.
      by rewrite Henv, Hfile. }
    apply model_validate_outcome. }
  split; [exact Hsame|].
  intros s1 s2 t1' t2' Hrun1 Hrun2.
  rewrite Hrun1, Hrun2 in Hsame. simpl in Hsame.
  injection Hsame as ->. split; [reflexivity|]. reflexivity.
Qed.

Lemma resolution_deterministic_witness :
  fst (with_config [("SUPABASE_REGION", "ap-south-1")]
         {[ "/work/.env" := RegularFile [("QUERY_API_KEY", "k")] ]}
         (Some "/work/.env") [])
  = fst (with_config [("SUPABASE_REGION", "ap-south-1")]
           {[ "/home/u/.config/supabase-mcp/.env" :=
                RegularFile [("QUERY_API_KEY", "k")] ]}
           (Some "/home/u/.config/supabase-mcp/.env")
           [Logged ERROR "earlier"]).
Proof.
  apply (resolution_deterministic
           [("SUPABASE_REGION", "ap-south-1")]
           [("SUPABASE_REGION", "ap-south-1")]
           {[ "/work/.env" := RegularFile [("QUERY_API_KEY", "k")] ]}
           {[ "/home/u/.config/supabase-mcp/.env" :=
                RegularFile [("QUERY_API_KEY", "k")] ]}
           (Some "/work/.env") (Some "/home/u/.config/supabase-mcp/.env")
           [] [Logged ERROR "earlier"]).
  - reflexivity.
  - vm_compute. reflexivity.
Defined.

(** *** The locator *)

Lemma fs_is_file_exists (fs : FileSystem) p :
  fs_is_file fs p = true -> fs_exists fs p = true.
Proof.
  unfold fs_is_file, fs_exists. destruct (fs !! p) as [e|]; [|discriminate].
  intros _. apply bool_decide_eq_true. by eexists.
Qed.

Section LocatorOrder.
Context `{PathOps P}.
Variable proc : Process P.
Variable fs : FileSystem.

Lemma find_config_file_unfold env_file t :
    find_config_file proc fs env_file t =
      let cwd_config := cwd proc // env_file in
      let global_config := global_config_path proc in
      if fs_exists fs (path_str cwd_config) then
        (Returned (Some (path_str cwd_config)),
         (t ++ [Probed (path_str cwd_config)])%list)
      else if fs_exists fs (path_str global_config) then
        (Returned (Some (path_str global_config)),
         (t ++ [Probed (path_str cwd_config); Probed (path_str global_config);
                Logged ERROR (deprecation_message global_config)])%list)
      else
        (Returned None,
         (t ++ [Probed (path_str cwd_config);
                Probed (path_str global_config)])%list).
Proof.
    unfold find_config_file, path_exists, logger.error, emit,
      mbind, Eff_bind, mret, Eff_ret. simpl.
    destruct (fs_exists fs (path_str (cwd proc // env_file))); [done|].
    rewrite <- !app_assoc. simpl.
    destruct (fs_exists fs (path_str (global_config_path proc))); [|done].
    by rewrite <- app_assoc.
Qed.

  (** C6, as the code has it. For every file name the locator returns and
      never raises. If [<cwd>/<filename>] exists, as a regular file or as
      any other entry, it returns that path, absolute when the working
      directory is, after probing that path only and logging nothing.
      Otherwise, if the global config path exists, it logs the
      deprecation and returns that path. Otherwise it returns [None]. *)
Theorem locator_order env_file t :
    let cwd_config := cwd proc // env_file in
    let global_config := global_config_path proc in
    (fs_is_file fs (path_str cwd_config) = true ->
     fs_exists fs (path_str cwd_config) = true)
    /\ (fs_exists fs (path_str cwd_config) = true ->
        find_config_file proc fs env_file t
        = (Returned (Some (path_str cwd_config)),
           (t ++ [Probed (path_str cwd_config)])%list)
        /\ (is_absolute (cwd proc) = true -> is_absolute cwd_config = true))
    /\ (fs_exists fs (path_str cwd_config) = false ->
        fs_exists fs (path_str global_config) = true ->
        find_config_file proc fs env_file t
        = (Returned (Some (path_str global_config)),
           (t ++ [Probed (path_str cwd_config); Probed (path_str global_config);
                  Logged ERROR (deprecation_message global_config)])%list))
    /\ (fs_exists fs (path_str cwd_config) = false ->
        fs_exists fs (path_str global_config) = false ->
        find_config_file proc fs env_file t
        = (Returned None,
           (t ++ [Probed (path_str cwd_config);
                  Probed (path_str global_config)])%list))
    /\ exists r t', find_config_file proc fs env_file t = (Returned r, t').
Proof.
    intros cwd_config global_config.
    rewrite find_config_file_unfold. fold cwd_config global_config. simpl.
    split; [apply fs_is_file_exists|].
    split; [|split; [|split]].
    - intros ->. split; [done|]. apply joinpath_absolute.
    - by intros -> ->.
    - by intros -> ->.
    - destruct (fs_exists fs (path_str cwd_config)); [by eauto|].
      destruct (fs_exists fs (path_str global_config)); by eauto.
Qed.

End LocatorOrder.

(** A process on a POSIX system. *)
Definition posix_process : Process string :=
  {| cwd := "/work"; home := "/home/u"; os_name := "posix";
     environ := [("HOME", "/home/u")] |}.

Example global_config_posix :
  path_str (global_config_path posix_process)
  = "/home/u/.config/supabase-mcp/.env".
Proof. reflexivity. Qed.

Example run_load_settings :
  run (load_settings posix_process
         {[ "/work/.env" := RegularFile [("supabase_region", "eu-west-1")] ]})
  = (Returned {| supabase_project_ref := "127.0.0.1:54322";
                 supabase_db_password := Some "postgres";
                 supabase_region := "eu-west-1";
                 supabase_access_token := None;
                 supabase_service_role_key := None;
                 supabase_api_url := "https://api.supabase.com";
                 query_api_key := "test-key";
                 query_api_url := "https://api.thequery.dev/v1" |},
     [Probed "/work/.env";
      Logged INFO "Using settings from config file: /work/.env"]).
Proof. vm_compute. reflexivity. Qed.

(** A config file with a variable that no field reads is refused. *)
Example run_extra_input :
  run (with_config [] {[ "/work/.env" := RegularFile [("DEBUG", "1")] ]}
         (Some "/work/.env"))
  = (Raised (ValidationError [extra_forbidden "debug"]), []).
Proof. vm_compute. reflexivity. Qed.

Lemma locator_order_witness :
  let fs : FileSystem :=
    {[ "/work/.env" := RegularFile [("SUPABASE_REGION", "eu-west-1")];
       "/home/u/.config/supabase-mcp/.env" := RegularFile [] ]} in
  find_config_file posix_process fs ".env" []
  = (Returned (Some "/work/.env"), [Probed "/work/.env"])
  /\ find_config_file posix_process
       {[ "/home/u/.config/supabase-mcp/.env" := RegularFile [] ]} ".env" []
     = (Returned (Some "/home/u/.config/supabase-mcp/.env"),
        [Probed "/work/.env"; Probed "/home/u/.config/supabase-mcp/.env";
         Logged ERROR
           (deprecation_message (P:=string) "/home/u/.config/supabase-mcp/.env")])
  /\ find_config_file posix_process ∅ ".env" []
     = (Returned None,
        [Probed "/work/.env"; Probed "/home/u/.config/supabase-mcp/.env"]).
Proof.
  intros fs. split; [|split].
  - destruct (locator_order posix_process fs ".env" [])
      as (Hfile & Hcwd & _).
    apply Hcwd, Hfile. vm_compute. reflexivity.
  - destruct (locator_order posix_process
                {[ "/home/u/.config/supabase-mcp/.env" := RegularFile [] ]}
                ".env" [])
      as (_ & _ & Hglobal & _).
    apply Hglobal; vm_compute; reflexivity.
  - destruct (locator_order posix_process ∅ ".env" [])
      as (_ & _ & _ & Hnone & _).
    apply Hnone; vm_compute; reflexivity.
Defined.

(** C6 as stated fails: when [<cwd>/.env] exists but is a directory, not
    a regular file, the locator still returns it and never looks at the
    global path. *)
Lemma locator_order_counterexample :
  ~ (forall (proc : Process string) (fs : FileSystem) env_file t,
       fs_is_file fs (path_str (cwd proc // env_file)) = false ->
       fs_exists fs (path_str (global_config_path proc)) = true ->
       fst (find_config_file proc fs env_file t)
       = Returned (Some (path_str (global_config_path proc)))).
Proof.
  intros Hall.
  specialize (Hall posix_process
                {[ "/work/.env" := Directory;
                   "/home/u/.config/supabase-mcp/.env" := RegularFile [] ]}
                ".env" []).
  assert (fst (find_config_file posix_process
                 {[ "/work/.env" := Directory;
                    "/home/u/.config/supabase-mcp/.env" := RegularFile [] ]}
                 ".env" [])
          = Returned (Some "/work/.env")) as Hrun by (vm_compute; reflexivity).
  rewrite Hrun in Hall.
  assert (Returned (Some "/work/.env")
          = Returned (Some "/home/u/.config/supabase-mcp/.env")) as Heq.
  { apply Hall; vm_compute; reflexivity. }
  discriminate Heq.
Qed.

(** * Further properties of the resolver *)

Lemma truthy_true s : Py.truthy s = true <-> s <> "".
Proof. destruct s; simpl; split; congruence. Qed.

Lemma truthy_opt_true v :
  Py.truthy_opt v = true <-> exists s, v = Some s /\ s <> "".
Proof.
  destruct v as [s|]; simpl.
  - rewrite truthy_true. split; [by eauto|]. by intros (s' & [= <-] & Hs).
  - split; [discriminate|]. by intros (s' & Hs & _).
Qed.

(** The target is local or a password is given. *)
Definition password_settled (environ : list (string * string))
    (fs : FileSystem) (cfg : option string) : Prop :=
  Py.startswith (selected_str environ fs cfg supabase_project_ref_field)
                "127.0.0.1" = true
  \/ Py.truthy_opt (supplied environ fs cfg supabase_db_password_field) = true.

Lemma SettingsWithConfig_returned_settled environ fs cfg t s t' :
  SettingsWithConfig environ fs cfg t = (Returned s, t') ->
  password_settled environ fs cfg.
Proof.
  rewrite SettingsWithConfig_table. unfold finish, password_settled.
  set (ref := selected_str environ fs cfg supabase_project_ref_field).
  set (pw := supplied environ fs cfg supabase_db_password_field).
  destruct (Py.truthy ref).
  2:{ destruct (Py.truthy_opt pw); discriminate. }
  destruct (Py.startswith ref _); [by left|].
  destruct (Py.truthy_opt pw); [by right|discriminate].
Qed.

(** What a failed construction looks like: a [ValidationError] with at
    least one error, and a trace that has grown by nothing or by the one
    error line on the password. *)
Lemma SettingsWithConfig_raised environ fs cfg t e t' :
  SettingsWithConfig environ fs cfg t = (Raised e, t') ->
  exists err errors,
    e = ValidationError (err :: errors)
    /\ (t' = t \/ t' = (t ++ [password_required_log])%list).
Proof.
  rewrite SettingsWithConfig_table. unfold finish.
  set (ref := selected_str environ fs cfg supabase_project_ref_field).
  set (pw := supplied environ fs cfg supabase_db_password_field).
  destruct (Py.truthy ref).
  - destruct (Py.startswith ref _).
    + destruct (extra_errors _) as [|err errors]; [discriminate|].
      intros [= <- <-]. eauto.
    + destruct (Py.truthy_opt pw).
      * destruct (extra_errors _) as [|err errors]; [discriminate|].
        intros [= <- <-]. eauto.
      * intros [= <- <-]. eauto.
  - destruct (Py.truthy_opt pw); intros [= <- <-]; eauto.
Qed.

(** X1. Resolution returns settings exactly when the config file brings
    no extra input, the selected project reference is not empty, and the
    reference is on the loopback or a non-empty password is supplied. The
    region and the remaining fields never decide it. *)
Theorem resolution_succeeds_iff environ fs cfg t :
  (exists s t', with_config environ fs cfg t = (Returned s, t'))
  <-> no_extra_inputs fs cfg
      /\ selected_str environ fs cfg supabase_project_ref_field <> ""
      /\ (Py.startswith (selected_str environ fs cfg supabase_project_ref_field)
                        "127.0.0.1" = true
          \/ exists v, supplied environ fs cfg supabase_db_password_field = Some v
                       /\ v <> "").
Proof.
  rewrite <- truthy_true, <- truthy_opt_true. split.
  - intros (s & t' & Hrun). apply with_config_returned in Hrun as [Hrun _].
    pose proof (SettingsWithConfig_returned_settled _ _ _ _ _ _ Hrun).
    apply SettingsWithConfig_returned in Hrun as (_ & Hextra & Href & _).
    done.
  - intros (Hextra & Href & Hpw). eexists _, _.
    rewrite with_config_unfold, SettingsWithConfig_succeeds; done.
Qed.

(** X2. Off the loopback a supplied non-empty password is passed through
    unchanged: with a non-empty project reference that does not start with
    [127.0.0.1] and no extra input, resolution returns settings whose
    password is the supplied value. *)
Theorem remote_password_passthrough environ fs cfg t v :
  no_extra_inputs fs cfg ->
  selected_str environ fs cfg supabase_project_ref_field <> "" ->
  Py.startswith (selected_str environ fs cfg supabase_project_ref_field)
                "127.0.0.1" = false ->
  supplied environ fs cfg supabase_db_password_field = Some v ->
  v <> "" ->
  exists s,
    with_config environ fs cfg t
    = (Returned s, (t ++ [Logged INFO (source_line environ cfg)])%list)
    /\ supabase_db_password s = Some v
    /\ supabase_project_ref s
       = selected_str environ fs cfg supabase_project_ref_field.
Proof.
  intros Hextra Href Hremote Hpw Hv. eexists.
  rewrite with_config_unfold, SettingsWithConfig_succeeds.
  - split; [reflexivity|]. rewrite instance_of_build, Hpw. simpl.
    split; [|reflexivity]. by destruct v.
  - done.
  - by apply truthy_true.
  - right. apply truthy_opt_true. eauto.
Qed.

Lemma remote_password_passthrough_witness :
  exists s,
    with_config [("SUPABASE_PROJECT_REF", "myproject.supabase.co");
                 ("SUPABASE_DB_PASSWORD", "s3cr3t")] ∅ None []
    = (Returned s,
       [Logged INFO
          (source_line [("SUPABASE_PROJECT_REF", "myproject.supabase.co");
                        ("SUPABASE_DB_PASSWORD", "s3cr3t")] None)])
    /\ supabase_db_password s = Some "s3cr3t"
    /\ supabase_project_ref s
       = selected_str [("SUPABASE_PROJECT_REF", "myproject.supabase.co");
                       ("SUPABASE_DB_PASSWORD", "s3cr3t")] ∅ None
           supabase_project_ref_field.
Proof.
  apply (remote_password_passthrough
           [("SUPABASE_PROJECT_REF", "myproject.supabase.co");
            ("SUPABASE_DB_PASSWORD", "s3cr3t")] ∅ None [] "s3cr3t").
  - apply no_extra_inputs_no_file.
  - vm_compute. discriminate.
  - vm_compute. reflexivity.
  - vm_compute. reflexivity.
  - discriminate.
Defined.

(** X3. In every resolved settings the project reference is not empty
    and the database password is a non-empty string: it is never [None],
    whatever the declared default. *)
Theorem resolved_credentials_nonempty environ fs cfg t s t' :
  with_config environ fs cfg t = (Returned s, t') ->
  supabase_project_ref s <> ""
  /\ exists v, supabase_db_password s = Some v /\ v <> "".
Proof.
  intros Hrun. apply with_config_returned in Hrun as [Hrun _].
  pose proof (SettingsWithConfig_returned_settled _ _ _ _ _ _ Hrun) as Hpw.
  apply SettingsWithConfig_returned in Hrun as (_ & _ & Href & ->).
  rewrite instance_of_build. simpl. split; [by apply truthy_true|].
  eexists. split; [reflexivity|].
  destruct (supplied environ fs cfg supabase_db_password_field) as [v|] eqn:Hv;
    simpl; [|discriminate].
  destruct (Py.truthy v) eqn:Htruthy; [by apply truthy_true|discriminate].
Qed.

Lemma resolved_credentials_nonempty_witness :
  supabase_project_ref defaults <> ""
  /\ exists v, supabase_db_password defaults = Some v /\ v <> "".
Proof.
  assert (with_config [] ∅ None []
          = (Returned defaults,
             [Logged INFO "Using default settings (local development)"]))
    as Hrun by (vm_compute; reflexivity).
  exact (resolved_credentials_nonempty _ _ _ _ _ _ Hrun).
Defined.

(** X4. When resolution fails it raises a [ValidationError] with at least
    one error, never a bare [ValueError]; no informational line is logged,
    and the trace grows by nothing or by the one error line on the
    password. *)
Theorem failure_is_validation_error environ fs cfg t e t' :
  with_config environ fs cfg t = (Raised e, t') ->
  exists err errors,
    e = ValidationError (err :: errors)
    /\ (t' = t \/ t' = (t ++ [password_required_log])%list).
Proof.
  rewrite with_config_unfold.
  destruct (SettingsWithConfig environ fs cfg t) as [[s|e0] t0] eqn:Hrun;
    [discriminate|].
  intros [= <- <-]. by eapply SettingsWithConfig_raised.
Qed.

Lemma failure_is_validation_error_witness :
  exists err errors,
    ValidationError [project_ref_empty_error]
    = ValidationError (err :: errors)
    /\ (([] : Trace) = [] \/ ([] : Trace) = ([] ++ [password_required_log])%list).
Proof.
  assert (with_config [("SUPABASE_PROJECT_REF", "");
                       ("SUPABASE_DB_PASSWORD", "s3cr3t")] ∅ None []
          = (Raised (ValidationError [project_ref_empty_error]), []))
    as Hrun by (vm_compute; reflexivity).
  exact (failure_is_validation_error _ _ _ _ _ _ Hrun).
Defined.

Lemma extra_errors_forbidden data e :
  e ∈ extra_errors data -> exists k, e = extra_forbidden k.
Proof.
  unfold extra_errors. intros Hin.
  apply list_elem_of_omap in Hin as ([k v] & _ & Hk). simpl in Hk.
  destruct (bool_decide _); [discriminate|]. injection Hk as <-. by eexists.
Qed.

(** X5. With an empty project reference the password validator finds no
    validated reference and treats the target as remote: without a
    non-empty password the error on the project reference and the error
    on the password (at the alias for an empty password, at the field's
    name for an absent one) are raised together, followed by errors on
    extra inputs only, and the password failure is logged; with a
    non-empty password only the project reference is refused, besides
    extra inputs, and nothing is logged. *)
Theorem empty_ref_password_check environ fs cfg t :
  selected_str environ fs cfg supabase_project_ref_field = "" ->
  (Py.truthy_opt (supplied environ fs cfg supabase_db_password_field) = false ->
   exists extras,
     with_config environ fs cfg t
     = (Raised (ValidationError
                  (project_ref_empty_error
                     :: password_error
                          (supplied environ fs cfg supabase_db_password_field)
                     :: extras)),
        (t ++ [password_required_log])%list)
     /\ forall e, e ∈ extras -> exists k, e = extra_forbidden k)
  /\ (Py.truthy_opt (supplied environ fs cfg supabase_db_password_field) = true ->
      exists extras,
        with_config environ fs cfg t
        = (Raised (ValidationError (project_ref_empty_error :: extras)), t)
        /\ forall e, e ∈ extras -> exists k, e = extra_forbidden k).
Proof.
  intros Hempty.
  rewrite with_config_unfold, SettingsWithConfig_table, Hempty. simpl.
  split; intros ->; eexists; (split; [reflexivity|]);
    apply extra_errors_forbidden.
Qed.

Lemma empty_ref_password_check_witness :
  exists extras,
    with_config [("SUPABASE_PROJECT_REF", "")] ∅ None []
    = (Raised (ValidationError
                 (project_ref_empty_error :: password_missing_error :: extras)),
       ([] ++ [password_required_log])%list)
    /\ forall e, e ∈ extras -> exists k, e = extra_forbidden k.
Proof.
  assert (selected_str [("SUPABASE_PROJECT_REF", "")] ∅ None
            supabase_project_ref_field = "")
    as Href by (vm_compute; reflexivity).
  assert (Py.truthy_opt (supplied [("SUPABASE_PROJECT_REF", "")] ∅ None
                           supabase_db_password_field) = false)
    as Hpw by (vm_compute; reflexivity).
  assert (supplied [("SUPABASE_PROJECT_REF", "")] ∅ None
            supabase_db_password_field = None)
    as Hnone by (vm_compute; reflexivity).
  destruct (proj1 (empty_ref_password_check _ _ _ [] Href) Hpw)
    as (extras & Hrun & Hextras).
  rewrite Hnone in Hrun. exists extras. split; [exact Hrun | exact Hextras].
Defined.

(** *** The region *)

(** The region codes the module lists; no validator consults them. *)
Definition SUPPORTED_REGIONS : list string :=
  [ "us-west-1"; "us-east-1"; "us-east-2"; "ca-central-1";
    "eu-west-1"; "eu-west-2"; "eu-west-3"; "eu-central-1";
    "eu-central-2"; "eu-north-1"; "ap-south-1"; "ap-southeast-1";
    "ap-northeast-1"; "ap-northeast-2"; "ap-southeast-2"; "sa-east-1" ].

(** The settings with another region. *)
Definition with_region (s : Settings) (r : string) : Settings :=
  {| supabase_project_ref := supabase_project_ref s;
     supabase_db_password := supabase_db_password s;
     supabase_region := r;
     supabase_access_token := supabase_access_token s;
     supabase_service_role_key := supabase_service_role_key s;
     supabase_api_url := supabase_api_url s;
     query_api_key := query_api_key s;
     query_api_url := query_api_url s |}.

Lemma dict_get_snoc_ne items k v k' :
  k <> k' -> Py.dict_get (items ++ [(k, v)]) k' = Py.dict_get items k'.
Proof.
  intros Hne. unfold Py.dict_get. f_equal.
  induction items as [|[k0 v0] items IH]; simpl.
  - destruct (String.eqb k k') eqn:Heq; [|done].
    by apply String.eqb_eq in Heq.
  - by destruct (String.eqb k0 k').
Qed.

Lemma env_vars_present_snoc environ k v :
  k <> "SUPABASE_PROJECT_REF" -> k <> "SUPABASE_DB_PASSWORD" ->
  env_vars_present (environ ++ [(k, v)]) = env_vars_present environ.
Proof.
  intros Href Hpw. unfold env_vars_present, Py.any, Py.dict_contains.
  cbn [existsb]. by rewrite !dict_get_snoc_ne.
Qed.

Lemma supplied_snoc_other environ fs cfg k v f :
  Py.lower k <> env_name f ->
  supplied (environ ++ [(k, v)]) fs cfg f = supplied environ fs cfg f.
Proof.
  intros Hne. unfold supplied. rewrite env_lookup_snoc.
  by rewrite decide_False.
Qed.

Lemma supplied_snoc_hit environ fs cfg k v f :
  Py.lower k = env_name f ->
  supplied (environ ++ [(k, v)]) fs cfg f = Some v.
Proof.
  intros Heq. unfold supplied. rewrite env_lookup_snoc.
  by rewrite decide_True.
Qed.

Lemma selected_snoc_other environ fs cfg k v f :
  Py.lower k <> env_name f ->
  selected (environ ++ [(k, v)]) fs cfg f = selected environ fs cfg f.
Proof. intros Hne. unfold selected. by rewrite supplied_snoc_other. Qed.

Lemma selected_str_snoc_other environ fs cfg k v f :
  Py.lower k <> env_name f ->
  selected_str (environ ++ [(k, v)]) fs cfg f = selected_str environ fs cfg f.
Proof. intros Hne. unfold selected_str. by rewrite selected_snoc_other. Qed.

(** X6. The region is unconstrained. Setting [SUPABASE_REGION] last in
    the environment to any string, in [SUPPORTED_REGIONS] or not, empty
    or not, never changes whether resolution succeeds nor what is logged:
    returned settings change in their region only, which becomes that
    string, and a failure stays a failure with the same trace. *)
Theorem region_unconstrained environ fs cfg t r :
  (forall s t',
     with_config environ fs cfg t = (Returned s, t') ->
     with_config (environ ++ [("SUPABASE_REGION", r)]) fs cfg t
     = (Returned (with_region s r), t'))
  /\ (forall e t',
        with_config environ fs cfg t = (Raised e, t') ->
        exists e',
          with_config (environ ++ [("SUPABASE_REGION", r)]) fs cfg t
          = (Raised e', t')).
Proof.
  set (environ' := (environ ++ [("SUPABASE_REGION", r)])%list).
  assert (selected_str environ' fs cfg supabase_project_ref_field
          = selected_str environ fs cfg supabase_project_ref_field) as Href.
  { by apply selected_str_snoc_other. }
  assert (supplied environ' fs cfg supabase_db_password_field
          = supplied environ fs cfg supabase_db_password_field) as Hpw.
  { by apply supplied_snoc_other. }
  assert (source_line environ' cfg = source_line environ cfg) as Hline.
  { unfold source_line, environ'. by rewrite env_vars_present_snoc. }
  split.
  - intros s t' Hrun. apply with_config_returned in Hrun as [Hrun ->].
    pose proof (SettingsWithConfig_returned_settled _ _ _ _ _ _ Hrun) as Hset.
    apply SettingsWithConfig_returned in Hrun as (_ & Hextra & Htruthy & ->).
    rewrite with_config_unfold, SettingsWithConfig_succeeds, Hline.
    + do 2 f_equal. rewrite !instance_of_build, Hpw. unfold with_region.
      cbn [supabase_project_ref supabase_db_password supabase_region
           supabase_access_token supabase_service_role_key supabase_api_url
           query_api_key query_api_url].
      unfold environ'.
      rewrite (selected_str_snoc_other _ _ _ _ _ supabase_project_ref_field),
        (selected_str_snoc_other _ _ _ _ _ supabase_api_url_field),
        (selected_str_snoc_other _ _ _ _ _ query_api_key_field),
        (selected_str_snoc_other _ _ _ _ _ query_api_url_field),
        (selected_snoc_other _ _ _ _ _ supabase_access_token_field),
        (selected_snoc_other _ _ _ _ _ supabase_service_role_key_field)
        by done.
      f_equal. unfold selected_str, selected.
      by rewrite supplied_snoc_hit.
    + done.
    + by rewrite Href.
    + unfold password_settled in Hset. by rewrite Href, Hpw.
  - intros e t'. rewrite !with_config_unfold, !SettingsWithConfig_table.
    rewrite Href, Hpw. unfold finish.
    set (ref := selected_str environ fs cfg supabase_project_ref_field).
    set (pw := supplied environ fs cfg supabase_db_password_field).
    destruct (extra_errors (build_values environ fs cfg)) as [|x xs] eqn:Hx.
    + rewrite (proj2 (extra_errors_build environ' fs cfg)
                 (proj1 (extra_errors_build environ fs cfg) Hx)).
      destruct (Py.truthy ref), (Py.startswith ref "127.0.0.1"),
        (Py.truthy_opt pw); try discriminate; intros [= <- <-]; eauto.
    + destruct (extra_errors (build_values environ' fs cfg)) as [|y ys] eqn:Hy.
      { apply (proj1 (extra_errors_build environ' fs cfg)) in Hy.
        apply (proj2 (extra_errors_build environ fs cfg)) in Hy.
        congruence. }
      destruct (Py.truthy ref), (Py.startswith ref "127.0.0.1"),
        (Py.truthy_opt pw); intros [= <- <-]; eauto.
Qed.

Lemma region_unconstrained_witness :
  ("local" ∉ SUPPORTED_REGIONS)
  /\ with_config ([("SUPABASE_DB_PASSWORD", "s3cr3t")]
                    ++ [("SUPABASE_REGION", "local")]) ∅ None []
     = (Returned (with_region
                    {| supabase_project_ref := "127.0.0.1:54322";
                       supabase_db_password := Some "s3cr3t";
                       supabase_region := "us-east-1";
                       supabase_access_token := None;
                       supabase_service_role_key := None;
                       supabase_api_url := "https://api.supabase.com";
                       query_api_key := "test-key";
                       query_api_url := "https://api.thequery.dev/v1" |}
                    "local"),
        [Logged INFO "Using environment variables for configuration"]).
Proof.
  split.
  - apply (bool_decide_unpack _). vm_compute. reflexivity.
  - assert (with_config [("SUPABASE_DB_PASSWORD", "s3cr3t")] ∅ None []
            = (Returned {| supabase_project_ref := "127.0.0.1:54322";
                           supabase_db_password := Some "s3cr3t";
                           supabase_region := "us-east-1";
                           supabase_access_token := None;
                           supabase_service_role_key := None;
                           supabase_api_url := "https://api.supabase.com";
                           query_api_key := "test-key";
                           query_api_url := "https://api.thequery.dev/v1" |},
               [Logged INFO "Using environment variables for configuration"]))
      as Hrun by (vm_compute; reflexivity).
    exact (proj1 (region_unconstrained _ ∅ None [] "local") _ _ Hrun).
Defined.

(** *** The environment, item by item *)

(** X7. A variable of [os.environ] decides its field under any spelling
    of the name: if the environment holds [(k, v)], [k] lower-cased is the
    name a field is read under, and no other spelling of that name holds a
    different value, then every resolved settings has [v] in that field,
    whatever the config file holds (for the database password, provided
    [v] is not empty). *)
Theorem environ_item_decides environ fs cfg t s t' f k v :
  with_config environ fs cfg t = (Returned s, t') ->
  f ∈ model_fields ->
  (k, v) ∈ environ ->
  Py.lower k = env_name f ->
  (forall k' v', (k', v') ∈ environ -> Py.lower k' = Py.lower k -> v' = v) ->
  (name f = "supabase_db_password" -> v <> "") ->
  getattr s (name f) = Some v.
Proof.
  intros Hrun Hf Hin Hname Huniq Hpw.
  pose proof (env_lookup_unique environ k v Hin Huniq) as Hlookup.
  rewrite Hname in Hlookup.
  assert (supplied environ fs cfg f = Some v) as Hsup.
  { unfold supplied. by rewrite Hlookup. }
  apply with_config_returned in Hrun as [Hrun _].
  apply SettingsWithConfig_returned in Hrun as (_ & _ & _ & ->).
  destruct (decide (name f = "supabase_db_password")) as [Heq|Hne].
  - specialize (Hpw Heq).
    assert (f = supabase_db_password_field) as ->.
    { unfold model_fields in Hf.
      repeat (apply elem_of_cons in Hf as [->|Hf];
              [first [reflexivity | discriminate Heq]|]).
      by apply elem_of_nil in Hf. }
    cbn [getattr name supabase_db_password_field String.eqb
         instance_of supabase_db_password]. simpl.
    rewrite Hsup. simpl. by destruct v.
  - rewrite getattr_instance_of by done. unfold selected. by rewrite Hsup.
Qed.

Lemma environ_item_decides_witness :
  let s := {| supabase_project_ref := "127.0.0.1:54322";
              supabase_db_password := Some "postgres";
              supabase_region := "ap-south-1";
              supabase_access_token := None;
              supabase_service_role_key := None;
              supabase_api_url := "https://api.supabase.com";
              query_api_key := "test-key";
              query_api_url := "https://api.thequery.dev/v1" |} in
  getattr s "supabase_region" = Some "ap-south-1".
Proof.
  intros s.
  assert (with_config
            [("supabase_region", "ap-south-1")]
            {[ "/work/.env" := RegularFile [("SUPABASE_REGION", "eu-west-1")] ]}
            (Some "/work/.env") []
          = (Returned s,
             [Logged INFO "Using settings from config file: /work/.env"]))
    as Hrun by (vm_compute; reflexivity).
  refine (environ_item_decides _ _ _ _ _ _ supabase_region_field
            "supabase_region" "ap-south-1" Hrun _ _ _ _ _).
  - in_fields.
  - apply list_elem_of_here.
  - reflexivity.
  - intros k' v' Hin _. apply list_elem_of_singleton in Hin.
    by inversion Hin.
  - discriminate.
Defined.

(** *** A config path that is not a regular file *)





(** * Further properties of the locator and of the module's entry point *)

Lemma with_config_no_sources environ fs t :
  (forall f, f ∈ model_fields -> env_lookup environ (env_name f) = None) ->
  with_config environ fs None t
  = (Returned defaults,
     (t ++ [Logged INFO "Using default settings (local development)"])%list).
Proof.
  intros Hunset.
  assert (forall f, f ∈ model_fields ->
            selected environ fs None f = default_value f) as Hsel.
  { intros f Hf. by apply selected_no_source, Hunset. }
  assert (supplied environ fs None supabase_db_password_field = None) as Hpw.
  { specialize (Hsel supabase_db_password_field ltac:(in_fields)).
    unfold selected in Hsel. by destruct (supplied _ _ _ _). }
  rewrite with_config_unfold, SettingsWithConfig_succeeds.
  - rewrite instance_of_build, Hpw. unfold selected_str.
    rewrite !Hsel by in_fields. unfold source_line.
    rewrite env_vars_present_false by (apply Hunset; in_fields).
    reflexivity.
  - apply no_extra_inputs_no_file.
  - unfold selected_str. by rewrite Hsel by in_fields.
  - left. unfold selected_str. by rewrite Hsel by in_fields.
Qed.

Lemma with_config_same_file_trace env fs1 fs2 cfg t :
  read_env_file fs1 cfg = read_env_file fs2 cfg ->
  with_config env fs1 cfg t = with_config env fs2 cfg t.
Proof.
  intros Hfile. rewrite !with_config_unfold. unfold SettingsWithConfig.
  assert (build_values env fs1 cfg = build_values env fs2 cfg) as ->;
    [|done].
  unfold build_values, dotenv_settings. by rewrite Hfile.
Qed.

Section EntryPoint.
Context `{PathOps P}.

Lemma load_settings_unfold (proc : Process P) (fs : FileSystem) t :
  load_settings proc fs t =
    let cwd_config := path_str (cwd proc // ".env") in
    let global_config := path_str (global_config_path proc) in
    if fs_exists fs cwd_config then
      with_config (environ proc) fs (Some cwd_config)
        (t ++ [Probed cwd_config])%list
    else if fs_exists fs global_config then
      with_config (environ proc) fs (Some global_config)
        (t ++ [Probed cwd_config; Probed global_config;
               Logged ERROR (deprecation_message (global_config_path proc))])%list
    else
      with_config (environ proc) fs None
        (t ++ [Probed cwd_config; Probed global_config])%list.
Proof.
  unfold load_settings, mbind, Eff_bind at 1.
  rewrite find_config_file_unfold. simpl.
  destruct (fs_exists fs (path_str (cwd proc // ".env"))); [done|].
  by destruct (fs_exists fs (path_str (global_config_path proc))).
Qed.

(** X9. A path the locator returns exists and is one of its two
    candidates, and it returns [None] only when neither candidate
    exists. *)
Theorem located_path_exists (proc : Process P) (fs : FileSystem) env_file t r t' :
  find_config_file proc fs env_file t = (Returned r, t') ->
  match r with
  | Some p =>
      fs_exists fs p = true
      /\ (p = path_str (cwd proc // env_file)
          \/ p = path_str (global_config_path proc))
  | None =>
      fs_exists fs (path_str (cwd proc // env_file)) = false
      /\ fs_exists fs (path_str (global_config_path proc)) = false
  end.
Proof.
  rewrite find_config_file_unfold. simpl.
  destruct (fs_exists fs (path_str (cwd proc // env_file))) eqn:Hcwd.
  { intros [= <- _]. eauto. }
  destruct (fs_exists fs (path_str (global_config_path proc))) eqn:Hglobal.
  { intros [= <- _]. eauto. }
  intros [= <- _]. eauto.
Qed.

(** X10. The locator logs the deprecation of the global config path
    exactly when the working-directory candidate does not exist and the
    global one does; it logs nothing else, and whenever it logs, the path
    it returns is the global one. *)
Theorem deprecation_logged_iff (proc : Process P) (fs : FileSystem)
    env_file t r t' :
  find_config_file proc fs env_file t = (r, t') ->
  exists new,
    t' = (t ++ new)%list
    /\ (Logged ERROR (deprecation_message (global_config_path proc)) ∈ new
        <-> fs_exists fs (path_str (cwd proc // env_file)) = false
            /\ fs_exists fs (path_str (global_config_path proc)) = true)
    /\ forall lvl msg,
         Logged lvl msg ∈ new ->
         lvl = ERROR
         /\ msg = deprecation_message (global_config_path proc)
         /\ r = Returned (Some (path_str (global_config_path proc))).
Proof.
  rewrite find_config_file_unfold. simpl.
  destruct (fs_exists fs (path_str (cwd proc // env_file))) eqn:Hcwd;
    [|destruct (fs_exists fs (path_str (global_config_path proc))) eqn:Hglobal];
    intros [= <- <-]; eexists; (split; [reflexivity|]); split.
  - split; [|by intros [? _]].
    intros Hin. apply list_elem_of_singleton in Hin. discriminate Hin.
  - intros lvl msg Hin. apply list_elem_of_singleton in Hin. discriminate Hin.
  - split; [done|]. intros _. do 2 apply list_elem_of_further.
    apply list_elem_of_here.
  - intros lvl msg Hin.
    repeat (apply elem_of_cons in Hin as [Hin|Hin]; [try discriminate Hin|]).
    + by injection Hin as -> ->.
    + by apply elem_of_nil in Hin.
  - split; [|by intros [_ ?]].
    intros Hin.
    repeat (apply elem_of_cons in Hin as [Hin|Hin]; [discriminate Hin|]).
    by apply elem_of_nil in Hin.
  - intros lvl msg Hin.
    repeat (apply elem_of_cons in Hin as [Hin|Hin]; [discriminate Hin|]).
    by apply elem_of_nil in Hin.
Qed.


(** X12. When [<cwd>/.env] exists, the entry point resolves with that
    path after one probe, and nothing else of the file system plays a
    part: two file systems with the same entry there give the same
    outcome and the same trace. *)
Theorem load_settings_local_file (proc : Process P) (fs1 fs2 : FileSystem) t :
  path_str (cwd proc // ".env") <> "" ->
  is_Some (fs1 !! path_str (cwd proc // ".env")) ->
  fs1 !! path_str (cwd proc // ".env") = fs2 !! path_str (cwd proc // ".env") ->
  load_settings proc fs1 t
  = with_config (environ proc) fs1 (Some (path_str (cwd proc // ".env")))
      (t ++ [Probed (path_str (cwd proc // ".env"))])%list
  /\ load_settings proc fs1 t = load_settings proc fs2 t.
Proof.
  intros Hpath Hsome Hsame.
  assert (forall fs : FileSystem,
            is_Some (fs !! path_str (cwd proc // ".env")) ->
            load_settings proc fs t
            = with_config (environ proc) fs
                (Some (path_str (cwd proc // ".env")))
                (t ++ [Probed (path_str (cwd proc // ".env"))])%list) as Hload.
  { intros fs Hfs. rewrite load_settings_unfold. simpl.
    unfold fs_exists. by rewrite bool_decide_true. }
  split; [by apply Hload|].
  rewrite !Hload by (by rewrite <- ?Hsame).
  apply with_config_same_file_trace. unfold read_env_file, Posix.of_string.
  apply truthy_true in Hpath. by rewrite Hpath, Hsame.
Qed.

(** X13. With no config file at either candidate path and no variable of
    the environment read by a field, the entry point probes the two
    candidates, logs the line for defaults and returns the defaults. *)
Theorem load_settings_defaults (proc : Process P) (fs : FileSystem) t :
  fs_exists fs (path_str (cwd proc // ".env")) = false ->
  fs_exists fs (path_str (global_config_path proc)) = false ->
  (forall f, f ∈ model_fields -> env_lookup (environ proc) (env_name f) = None) ->
  load_settings proc fs t
  = (Returned defaults,
     (t ++ [Probed (path_str (cwd proc // ".env"));
            Probed (path_str (global_config_path proc));
            Logged INFO "Using default settings (local development)"])%list).
Proof.
  intros Hcwd Hglobal Hunset.
  rewrite load_settings_unfold. simpl. rewrite Hcwd, Hglobal.
  rewrite with_config_no_sources by done. by rewrite <- app_assoc.
Qed.

End EntryPoint.

Lemma located_path_exists_witness :
  let fs : FileSystem :=
    {[ "/home/u/.config/supabase-mcp/.env" := RegularFile [] ]} in
  fs_exists fs "/home/u/.config/supabase-mcp/.env" = true
  /\ ("/home/u/.config/supabase-mcp/.env" = path_str (cwd posix_process // ".env")
      \/ "/home/u/.config/supabase-mcp/.env"
         = path_str (global_config_path posix_process)).
Proof.
  intros fs.
  assert (find_config_file posix_process fs ".env" []
          = (Returned (Some "/home/u/.config/supabase-mcp/.env"),
             [Probed "/work/.env"; Probed "/home/u/.config/supabase-mcp/.env";
              Logged ERROR
                (deprecation_message (global_config_path posix_process))]))
    as Hrun by (vm_compute; reflexivity).
  exact (located_path_exists _ _ _ _ _ _ Hrun).
Defined.

Lemma deprecation_logged_iff_witness :
  let fs : FileSystem :=
    {[ "/home/u/.config/supabase-mcp/.env" := RegularFile [] ]} in
  exists new,
    [Probed "/work/.env"; Probed "/home/u/.config/supabase-mcp/.env";
     Logged ERROR (deprecation_message (global_config_path posix_process))]
    = ([] ++ new)%list
    /\ (Logged ERROR (deprecation_message (global_config_path posix_process)) ∈ new
        <-> fs_exists fs (path_str (cwd posix_process // ".env")) = false
            /\ fs_exists fs (path_str (global_config_path posix_process)) = true).
Proof.
  intros fs.
  assert (find_config_file posix_process fs ".env" []
          = (Returned (Some "/home/u/.config/supabase-mcp/.env"),
             [Probed "/work/.env"; Probed "/home/u/.config/supabase-mcp/.env";
              Logged ERROR
                (deprecation_message (global_config_path posix_process))]))
    as Hrun by (vm_compute; reflexivity).
  destruct (deprecation_logged_iff _ _ _ _ _ _ Hrun) as (new & Hnew & Hiff & _).
  exists new. split; [exact Hnew | exact Hiff].
Defined.


Lemma load_settings_local_file_witness :
  let fs1 : FileSystem :=
    {[ "/work/.env" := RegularFile [("SUPABASE_REGION", "eu-west-1")];
       "/home/u/.config/supabase-mcp/.env" :=
         RegularFile [("SUPABASE_REGION", "ap-south-1")] ]} in
  let fs2 : FileSystem :=
    {[ "/work/.env" := RegularFile [("SUPABASE_REGION", "eu-west-1")] ]} in
  load_settings posix_process fs1 [] = load_settings posix_process fs2 [].
Proof.
  intros fs1 fs2.
  apply (load_settings_local_file posix_process fs1 fs2 []).
  - discriminate.
  - vm_compute. eexists. reflexivity.
  - vm_compute. reflexivity.
Defined.

Lemma load_settings_defaults_witness :
  load_settings posix_process ∅ []
  = (Returned defaults,
     ([] ++ [Probed (path_str (cwd posix_process // ".env"));
             Probed (path_str (global_config_path posix_process));
             Logged INFO "Using default settings (local development)"])%list).
Proof.
  apply (load_settings_defaults posix_process ∅ []).
  - vm_compute. reflexivity.
  - vm_compute. reflexivity.
  - intros f Hf. unfold model_fields in Hf.
    repeat (apply elem_of_cons in Hf as [->|Hf]; [by vm_compute|]).
    by apply elem_of_nil in Hf.
Defined.
